(** * Account signal scorer of [terraform/ai_analysis_workflow.py]

    A shallow embedding of the rule-based part of [UserWorkflowAnalyzer]:
    the four pattern classifiers, the user-type classifier, the health,
    churn and growth scorers, and the daily batch loop.

    Conventions of the embedding.
    - Python numbers that are compared, summed or divided ([int] or
      [float]) are exact rationals [Q]; scores that the code builds from
      integer literals only are [Z].
    - A Python [dict] built by the code is a [gmap string value]; [d.get(k)]
      is the lookup [d !! k], whose [None] is Python's [None].
    - The rows handed in by the warehouse are records.  A field read with
      [d[k]] is a plain field, a field read with [d.get(k, default)] is an
      [option]; an absent row (the [{}] of [_fetch_user_data]) is [None].
    - Code that can raise returns [res].

    Limits of these conventions.  Sums, means and ratios are exact here and
    rounded to doubles in Python, so a label that depends on the sign of a
    sum of fractional rates or on a mean at a threshold can differ; the
    statements below that depend on such a value say so or avoid it, and
    [_detect_trend_double] gives the trend thresholds in binary64.  A column
    that is present with the value [None] (an SQL NULL) is no value of the
    records: comparing it raises [TypeError] in [_categorize_activity] and
    the like, so every statement about a snapshot is about rows whose
    numeric columns are numbers or absent.  The batch definitions start at
    the loop of line 400; what runs before it (the constructor and
    [get_active_users]) is outside the [try]. *)

From Stdlib Require Import ZArith QArith Qabs Lia Lqa List SpecFloat.
From stdpp Require Import base option list gmap strings fin_maps.

Local Open Scope Z_scope.

(** ** Python values and exceptions *)

Inductive pyexn : Type :=
| IndexError
| TypeError.

Inductive res (A : Type) : Type :=
| Ret (a : A)
| Raise (e : pyexn).

Arguments Ret {A} a.
Arguments Raise {A} e.

Definition res_bind {A B : Type} (m : res A) (k : A -> res B) : res B :=
  match m with
  | Ret a => k a
  | Raise e => Raise e
  end.

Notation "'let*' x ':=' m 'in' k" := (res_bind m (fun x => k))
  (at level 10, x name, m at level 100, k at level 200).

Inductive value : Type :=
| VStr (s : string)
| VNum (q : Q)
| VBool (b : bool).

(** [x < y] on numbers, as a boolean. *)
Definition Qltb (x y : Q) : bool := negb (Qle_bool y x).

(** [v == s] for a string literal [s]; [v] is the result of a [dict.get].
    Comparing [None], a number or a boolean with a string is [False]. *)
Definition py_eq_str (v : option value) (s : string) : bool :=
  match v with
  | Some (VStr t) => String.eqb t s
  | _ => false
  end.

(** [v > q] for a numeric literal [q]; a string operand raises. *)
Definition py_gt (v : value) (q : Q) : res bool :=
  match v with
  | VNum x => Ret (Qltb q x)
  | VBool b => Ret (Qltb q (if b then 1 else 0)%Q)
  | VStr _ => Raise TypeError
  end.

(** [sum(l)]: Python adds from the left, starting at 0. *)
Definition py_sum (l : list Q) : Q := fold_left Qplus l 0%Q.

(** [len(l)] as a number. *)
Definition py_len {A : Type} (l : list A) : Q := inject_Z (Z.of_nat (length l)).

(** [l[i]] with Python's negative indices; out of range raises. *)
Definition py_index {A : Type} (l : list A) (i : Z) : res A :=
  let n := Z.of_nat (length l) in
  let j := if 0 <=? i then i else n + i in
  if (0 <=? j) && (j <? n)
  then match l !! Z.to_nat j with
       | Some x => Ret x
       | None => Raise IndexError
       end
  else Raise IndexError.

(** Truth value of [r.get(k)] for a numeric field: [None] and 0 are false. *)
Definition truthy_num (o : option Q) : bool :=
  match o with
  | Some q => negb (Qeq_bool q 0)
  | None => false
  end.

(** Truth value of [r.get(k)] for a string field: [None] and the empty string are false. *)
Definition truthy_str (o : option string) : bool :=
  match o with
  | Some s => negb (String.eqb s "")
  | None => false
  end.

(** ** The snapshot fetched by [_fetch_user_data] *)

Record RevenueEntry : Type := {
  month : string;
  revenue : Q;
  growth_rate : option Q
}.

Record WebsiteEntry : Type := {
  daily_users : Q;
  new_users : Q;
  users : Q;
  bounce_rate : Q;
  sessions_per_user : Q
}.

Record CustomerRecord : Type := {
  lifetime_value : option Q;
  engagement_level : option string;
  total_invoices : option Q;
  stripe_customer_id : option string;
  shopify_customer_id : option string
}.

Record DeveloperRecord : Type := {
  productivity_score : option Q;
  avg_pr_merge_time : option Q;
  most_active_day : option Z;
  most_active_hour : option Q;
  total_prs : option Q
}.

Record UserData : Type := {
  ud_customer : option CustomerRecord;
  ud_developer : option DeveloperRecord;
  ud_revenue : list RevenueEntry;
  ud_website : list WebsiteEntry
}.

(** The dictionary returned by [_analyze_patterns]: four fixed keys. *)
Record Patterns : Type := {
  revenue_patterns : gmap string value;
  development_patterns : gmap string value;
  customer_patterns : gmap string value;
  website_patterns : gmap string value
}.

(** ** Helper methods *)

Definition _detect_seasonality (revenue_data : list RevenueEntry) : string :=
  if (length revenue_data <? 12)%nat then "insufficient_data" else "no_seasonality".

Definition _categorize_activity (score : Q) : string :=
  if Qltb 100 score then "very_active"
  else if Qltb 50 score then "active"
  else if Qltb 20 score then "moderate"
  else "low".

Definition _categorize_ltv (ltv : Q) : string :=
  if Qltb 10000 ltv then "enterprise"
  else if Qltb 1000 ltv then "premium"
  else if Qltb 100 ltv then "standard"
  else "basic".

Definition days : list string :=
  ["Sunday"; "Monday"; "Tuesday"; "Wednesday"; "Thursday"; "Friday"; "Saturday"].

Definition _day_name (day_num : Z) : res string :=
  if (0 <=? day_num) && (day_num <=? 6) then py_index days day_num else Ret "Unknown"%string.

Definition _detect_trend (values : list Q) : string :=
  if (length values <? 2)%nat then "insufficient_data"
  else
    let h := (length values / 2)%nat in
    let first_half := (py_sum (take h values) / inject_Z (Z.of_nat h))%Q in
    let second_half :=
      (py_sum (drop h values) / inject_Z (Z.of_nat (length values - h)))%Q in
    if Qltb (first_half * (11 # 10)) second_half then "growing"
    else if Qltb second_half (first_half * (9 # 10)) then "declining"
    else "stable".

Definition _categorize_growth (website_data : list WebsiteEntry) : string :=
  match website_data with
  | [] => "no_data"
  | _ =>
    let new_user_ratio :=
      (py_sum (map (fun d => if Qltb 0 (users d) then new_users d / users d else 0)
                   website_data)
       / py_len website_data)%Q in
    if Qltb (7 # 10) new_user_ratio then "early_stage"
    else if Qltb (3 # 10) new_user_ratio then "growth_stage"
    else "mature_stage"
  end.

(** ** The four pattern classifiers *)

(** [[r['growth_rate'] for r in revenue_data if r.get('growth_rate')]] *)
Definition growth_rates_of (revenue_data : list RevenueEntry) : list Q :=
  omap (fun r => if truthy_num (growth_rate r) then growth_rate r else None) revenue_data.

Definition _analyze_revenue_patterns (revenue_data : list RevenueEntry)
  : gmap string value :=
  match revenue_data with
  | [] => {[ "status" := VStr "no_data" ]}
  | _ =>
    let latest_revenue :=
      match last revenue_data with
      | Some r => revenue r
      | None => 0%Q
      end in
    let growth_rates := growth_rates_of revenue_data in
    <[ "trend" := VStr (if Qltb 0 (py_sum growth_rates) then "growing" else "declining") ]>
    (<[ "avg_growth_rate" :=
          VNum (match growth_rates with
                | [] => 0
                | _ => py_sum growth_rates / py_len growth_rates
                end)%Q ]>
    (<[ "seasonality" := VStr (_detect_seasonality revenue_data) ]>
    (<[ "revenue_stability" :=
          VStr (if forallb (fun r => Qltb (Qabs r) 20) growth_rates
                then "stable" else "volatile") ]>
    (<[ "current_mrr" := VNum latest_revenue ]> ∅))))
  end.

Definition get_num (o : option Q) (default : Q) : Q :=
  match o with Some q => q | None => default end.

Definition _analyze_dev_patterns (dev_data : option DeveloperRecord)
  : res (gmap string value) :=
  match dev_data with
  | None => Ret {[ "status" := VStr "no_data" ]}
  | Some d =>
    let activity := _categorize_activity (get_num (productivity_score d) 0) in
    let efficiency :=
      if Qltb (get_num (avg_pr_merge_time d) 0) 2
      then "efficient" else "needs_improvement" in
    let* day := _day_name (match most_active_day d with Some n => n | None => 0 end) in
    Ret (<[ "activity_level" := VStr activity ]>
        (<[ "pr_efficiency" := VStr efficiency ]>
        (<[ "most_active_day" := VStr day ]>
        (<[ "most_active_hour" := VNum (get_num (most_active_hour d) 0) ]>
        (<[ "collaboration_style" :=
              VStr (if Qltb 10 (get_num (total_prs d) 0) then "active" else "passive") ]>
         ∅)))))
  end.

Definition _analyze_customer_patterns (customer_data : option CustomerRecord)
  : gmap string value :=
  match customer_data with
  | None => {[ "status" := VStr "no_data" ]}
  | Some c =>
    <[ "customer_value" := VStr (_categorize_ltv (get_num (lifetime_value c) 0)) ]>
    (<[ "engagement" :=
          VStr (match engagement_level c with Some e => e | None => "unknown" end) ]>
    (<[ "purchase_frequency" :=
          VStr (if Qltb 10 (get_num (total_invoices c) 0)
                then "frequent" else "occasional") ]>
    (<[ "cross_platform" :=
          VBool (truthy_str (stripe_customer_id c)
                 && truthy_str (shopify_customer_id c)) ]> ∅)))
  end.

(** [avg_users] (line 136) is computed and never read; its division is by
    the length of a non-empty list, so it cannot raise, and it is left out. *)
Definition _analyze_website_patterns (website_data : list WebsiteEntry)
  : gmap string value :=
  match website_data with
  | [] => {[ "status" := VStr "no_data" ]}
  | _ =>
    let bounce_rates := map bounce_rate website_data in
    <[ "traffic_trend" := VStr (_detect_trend (map daily_users website_data)) ]>
    (<[ "engagement_quality" :=
          VStr (if Qltb (py_sum bounce_rates / py_len bounce_rates) 50
                then "high" else "low") ]>
    (<[ "user_retention" :=
          VStr (if existsb (fun d => Qltb (3 # 2) (sessions_per_user d)) website_data
                then "good" else "needs_work") ]>
    (<[ "growth_phase" := VStr (_categorize_growth website_data) ]> ∅)))
  end.

Definition _analyze_patterns (user_data : UserData) : res Patterns :=
  let rev := _analyze_revenue_patterns (ud_revenue user_data) in
  let* dev := _analyze_dev_patterns (ud_developer user_data) in
  Ret {| revenue_patterns := rev;
         development_patterns := dev;
         customer_patterns := _analyze_customer_patterns (ud_customer user_data);
         website_patterns := _analyze_website_patterns (ud_website user_data) |}.

(** ** User type (lines 304-318) *)

Definition get_default (d : gmap string value) (k : string) (default : value) : value :=
  match d !! k with Some v => v | None => default end.

Definition _determine_user_type (patterns : Patterns) : res string :=
  let dev_score := get_default (development_patterns patterns) "productivity_score" (VNum 0) in
  let revenue := get_default (revenue_patterns patterns) "current_mrr" (VNum 0) in
  let* a := py_gt dev_score 50 in
  let* both := (if a then py_gt revenue 1000 else Ret false) in
  if both then Ret "technical_founder"%string
  else
    let* b := py_gt dev_score 50 in
    if b then Ret "developer"%string
    else
      let* c := py_gt revenue 5000 in
      if c then Ret "enterprise_customer"%string
      else
        let* e := py_gt revenue 500 in
        if e then Ret "business_customer"%string
        else Ret "standard_user"%string.

(** ** Health, churn and growth (lines 329-380) *)

(** The value of [score] when line 349 is reached, before the clamp. *)
Definition health_score_unclamped (patterns : Patterns) : Z :=
  let score := 50 in
  let score :=
    if py_eq_str (revenue_patterns patterns !! "trend") "growing" then score + 20
    else if py_eq_str (revenue_patterns patterns !! "trend") "declining" then score - 20
    else score in
  let score :=
    if py_eq_str (customer_patterns patterns !! "engagement") "high" then score + 15
    else if py_eq_str (customer_patterns patterns !! "engagement") "low" then score - 15
    else score in
  let score :=
    if existsb (py_eq_str (development_patterns patterns !! "activity_level"))
               ["active"; "very_active"]%string
    then score + 15 else score in
  score.

Definition _calculate_health_score (patterns : Patterns) : Z :=
  Z.max 0 (Z.min 100 (health_score_unclamped patterns)).

(** The value of [risk_factors] when line 362 is reached. *)
Definition risk_factors (patterns : Patterns) : Z :=
  let risk_factors := 0 in
  let risk_factors :=
    if py_eq_str (revenue_patterns patterns !! "trend") "declining"
    then risk_factors + 2 else risk_factors in
  let risk_factors :=
    if py_eq_str (customer_patterns patterns !! "engagement") "low"
    then risk_factors + 2 else risk_factors in
  let risk_factors :=
    if py_eq_str (website_patterns patterns !! "engagement_quality") "low"
    then risk_factors + 1 else risk_factors in
  risk_factors.

Definition _calculate_churn_risk (patterns : Patterns) : string :=
  let risk_factors := risk_factors patterns in
  if 4 <=? risk_factors then "high"
  else if 2 <=? risk_factors then "medium"
  else "low".

(** The value of [score] when line 380 is reached, before [min]. *)
Definition growth_potential_unclamped (patterns : Patterns) : Z :=
  let score := 50 in
  let score :=
    if py_eq_str (revenue_patterns patterns !! "trend") "growing"
    then score + 20 else score in
  let score :=
    if py_eq_str (development_patterns patterns !! "activity_level") "very_active"
    then score + 20 else score in
  let score :=
    if py_eq_str (website_patterns patterns !! "traffic_trend") "growing"
    then score + 10 else score in
  score.

Definition _calculate_growth_potential (patterns : Patterns) : Z :=
  Z.min 100 (growth_potential_unclamped patterns).

(** ** Recommendations (lines 190-225) *)

Record Recommendation : Type := {
  rec_type : string;
  priority : string;
  action : string;
  reason : string;
  impact : string
}.

Definition _create_recommendations (health_score growth_potential : Z)
    (user_type : string) : list Recommendation :=
  (if health_score <? 70
   then [ {| rec_type := "revenue"; priority := "high";
             action := "Schedule customer success call";
             reason := "Health score below threshold";
             impact := "Reduce churn risk by 40%" |} ]
   else [])
  ++ (if String.eqb user_type "developer"
      then [ {| rec_type := "development"; priority := "medium";
                action := "Suggest code review automation";
                reason := "High PR volume detected";
                impact := "Save 5 hours per week" |} ]
      else [])
  ++ (if 80 <? growth_potential
      then [ {| rec_type := "growth"; priority := "high";
                action := "Offer premium features";
                reason := "High engagement and growth potential";
                impact := "Potential 30% revenue increase" |} ]
      else []).

(** ** The daily batch loop (lines 387-416)

    The warehouse, the language model and the notifier are collaborators:
    [World] is their state, and the two calls made inside the loop are
    parameters of the section.  What a call raises is either an instance of
    [Exception], which [except Exception] catches, or of another
    [BaseException] class, which it lets through. *)

Inductive raised : Type :=
| Exception (msg : string)
| BaseException (msg : string).

Inductive event : Type :=
| Print (line : string)
| Analyze (user_id : string)
| Alert (user_id : string) (recs : list Recommendation).

Section DailyBatch.
Variable World : Type.
Variable analyze_user_workflow :
  string -> World -> World * (raised + list Recommendation).
Variable send_alert :
  string -> list Recommendation -> World -> World * (raised + unit).

(** The body of [try], lines 402-410: the events it emits and how it ends. *)
Definition try_body (user_id : string) (w : World)
  : World * list event * (raised + unit) :=
  let started := [Print ("Analyzing user " ++ user_id ++ "..."); Analyze user_id] in
  match analyze_user_workflow user_id w with
  | (w1, inl e) => (w1, started, inl e)
  | (w1, inr recommendations) =>
    let high_priority :=
      List.filter (fun r => String.eqb (priority r) "high") recommendations in
    let finished := Print ("Analysis complete for user " ++ user_id) in
    match high_priority with
    | [] => (w1, started ++ [finished], inr tt)
    | _ =>
      match send_alert user_id high_priority w1 with
      | (w2, inl e) => (w2, started ++ [Alert user_id high_priority], inl e)
      | (w2, inr _) => (w2, started ++ [Alert user_id high_priority; finished], inr tt)
      end
    end
  end.

(** [for user_id in active_users: try: ... except Exception as e: ...; continue] *)
Fixpoint for_each_user (active_users : list string) (w : World)
  : World * list event * option raised :=
  match active_users with
  | [] => (w, [], None)
  | user_id :: rest =>
    match try_body user_id w with
    | (w1, ev, inr _) =>
      let '(w2, ev2, out) := for_each_user rest w1 in (w2, ev ++ ev2, out)
    | (w1, ev, inl (Exception msg)) =>
      let caught := Print ("Error analyzing user " ++ user_id ++ ": " ++ msg) in
      let '(w2, ev2, out) := for_each_user rest w1 in (w2, ev ++ caught :: ev2, out)
    | (w1, ev, inl (BaseException msg)) => (w1, ev, Some (BaseException msg))
    end
  end.

(** [run_daily_analysis], with the list of [get_active_users] as an argument. *)
Definition run_daily_analysis (active_users : list string) (w : World)
  : World * list event * option raised :=
  match for_each_user active_users w with
  | (w1, ev, None) => (w1, ev ++ [Print "Daily analysis complete"], None)
  | (w1, ev, Some e) => (w1, ev, Some e)
  end.
End DailyBatch.

Arguments try_body {World}.
Arguments for_each_user {World}.
Arguments run_daily_analysis {World}.

(** The accounts whose analysis was started, in the order of the trace. *)
Definition analyzed (tr : list event) : list string :=
  omap (fun e => match e with Analyze u => Some u | _ => None end) tr.

(** ** Reference definitions, written from the specification's wording *)

(** Arithmetic mean of a sequence. *)
Definition mean (l : list Q) : Q := (py_sum l / py_len l)%Q.

(** Mean of the [growth_rate] values of the entries that have one; 0 if none has. *)
Definition mean_of_present_growth_rates (revenue_data : list RevenueEntry) : Q :=
  match omap growth_rate revenue_data with
  | [] => 0%Q
  | g :: gs => mean (g :: gs)
  end.

(** Risk-factor count: 2 for declining revenue, 2 for low customer
    engagement, 1 for low website engagement quality. *)
Definition risk_count (declining low_engagement low_quality : bool) : Z :=
  (if declining then 2 else 0) + (if low_engagement then 2 else 0)
  + (if low_quality then 1 else 0).

Definition churn_tier (count : Z) : string :=
  if 4 <=? count then "high" else if 2 <=? count then "medium" else "low".

(** The order low < medium < high of the churn tiers. *)
Definition tier_rank (tier : string) : nat :=
  if String.eqb tier "high" then 2
  else if String.eqb tier "medium" then 1
  else 0.

Definition clamp_0_100 (score : Z) : Z := Z.max 0 (Z.min 100 score).

Definition engagement_delta (patterns : Patterns) : Z :=
  if py_eq_str (customer_patterns patterns !! "engagement") "high" then 15
  else if py_eq_str (customer_patterns patterns !! "engagement") "low" then -15
  else 0.

Definition activity_bonus (patterns : Patterns) : Z :=
  if py_eq_str (development_patterns patterns !! "activity_level") "active"
     || py_eq_str (development_patterns patterns !! "activity_level") "very_active"
  then 15 else 0.

Definition very_active_bonus (patterns : Patterns) : Z :=
  if py_eq_str (development_patterns patterns !! "activity_level") "very_active"
  then 20 else 0.

Definition revenue_growth_bonus (patterns : Patterns) : Z :=
  if py_eq_str (revenue_patterns patterns !! "trend") "growing" then 20 else 0.

Definition traffic_bonus (patterns : Patterns) : Z :=
  if py_eq_str (website_patterns patterns !! "traffic_trend") "growing" then 10 else 0.

(** Health score with no term from the revenue category. *)
Definition health_without_revenue (patterns : Patterns) : Z :=
  clamp_0_100 (50 + engagement_delta patterns + activity_bonus patterns).

(** Growth potential with no term from the revenue category. *)
Definition growth_without_revenue (patterns : Patterns) : Z :=
  clamp_0_100 (50 + very_active_bonus patterns + traffic_bonus patterns).


(** ** Snapshots used below *)

(** A developer with [productivity_score] 60 and a last month of 2000. *)
Definition founder_snapshot : UserData :=
  {| ud_customer := None;
     ud_developer :=
       Some {| productivity_score := Some 60%Q; avg_pr_merge_time := None;
               most_active_day := None; most_active_hour := None;
               total_prs := None |};
     ud_revenue := [ {| month := "2024-01"; revenue := 2000%Q; growth_rate := Some 10%Q |} ];
     ud_website := [] |}.

(** Two months, the first with a growth rate of exactly 0. *)
Definition flat_then_up : list RevenueEntry :=
  [ {| month := "2024-01"; revenue := 100%Q; growth_rate := Some 0%Q |};
    {| month := "2024-02"; revenue := 110%Q; growth_rate := Some 10%Q |} ].

(** Scenario A, with everything the scenario leaves open as a parameter. *)
Definition scenario_A (m1 m2 : string) (r1 r2 : Q)
    (ltv invoices : option Q) (stripe shopify : option string)
    (merge_time : option Q) (day : option Z) (hour prs : option Q)
    (ws : list WebsiteEntry) : UserData :=
  {| ud_customer :=
       Some {| lifetime_value := ltv; engagement_level := Some "high"%string;
               total_invoices := invoices; stripe_customer_id := stripe;
               shopify_customer_id := shopify |};
     ud_developer :=
       Some {| productivity_score := Some 60%Q; avg_pr_merge_time := merge_time;
               most_active_day := day; most_active_hour := hour; total_prs := prs |};
     ud_revenue := [ {| month := m1; revenue := r1; growth_rate := Some 5%Q |};
                     {| month := m2; revenue := r2; growth_rate := Some 8%Q |} ];
     ud_website := ws |}.

(** A report with all three churn factors. *)
Definition declining_low_low : Patterns :=
  {| revenue_patterns := {[ "trend" := VStr "declining" ]};
     development_patterns := ∅;
     customer_patterns := {[ "engagement" := VStr "low" ]};
     website_patterns := {[ "engagement_quality" := VStr "low" ]} |}.

(** Scenario D: a developer row whose most active day is 9. *)
Definition day_nine_developer : DeveloperRecord :=
  {| productivity_score := None; avg_pr_merge_time := None;
     most_active_day := Some 9; most_active_hour := None; total_prs := None |}.

(** An account with no rows at all. *)
Definition quiet_snapshot : UserData :=
  {| ud_customer := None; ud_developer := None; ud_revenue := []; ud_website := [] |}.

(** A day of website analytics with [n] daily users. *)
Definition site_day (n : Q) : WebsiteEntry :=
  {| daily_users := n; new_users := 1; users := 2; bounce_rate := 40;
     sessions_per_user := 2 |}.


(** Scenario E: a single day of website analytics. *)
Definition one_day_site : UserData :=
  {| ud_customer := None; ud_developer := None; ud_revenue := [];
     ud_website := [site_day 100] |}.

(** Collaborators for a run of the batch: the analysis of user_456 fails,
    the others yield two high-priority recommendations; [World] counts calls. *)
Definition flaky_analysis (user_id : string) (calls : nat)
  : nat * (raised + list Recommendation) :=
  if String.eqb user_id "user_456"
  then (S calls, inl (Exception "timeout"))
  else (S calls, inr (_create_recommendations 60 90 "standard_user")).

Definition silent_alert (user_id : string) (recs : list Recommendation) (calls : nat)
  : nat * (raised + unit) :=
  (S calls, inr tt).

(** The list returned by [get_active_users]. *)
Definition three_users : list string := ["user_123"; "user_456"; "user_789"].

(** ** Key metrics, insights and the analysis of one account
    (lines 19-43, 146-188, 320-327) *)

(** [_extract_key_metrics].  [total_repos] is a column of the developer row
    that no classifier reads; it is passed beside the record and is read
    only when the row exists. *)
Definition _extract_key_metrics (user_data : UserData) (total_repos : option Q)
  : gmap string value :=
  <[ "lifetime_value" :=
       VNum (match ud_customer user_data with
             | Some c => get_num (lifetime_value c) 0
             | None => 0%Q
             end) ]>
  (<[ "total_repos" :=
        VNum (match ud_developer user_data with
              | Some _ => get_num total_repos 0
              | None => 0%Q
              end) ]>
  (<[ "monthly_revenue" :=
        VNum (match ud_revenue user_data with
              | [] => 0%Q
              | _ => match last (ud_revenue user_data) with
                     | Some r => revenue r
                     | None => 0%Q
                     end
              end) ]>
  (<[ "avg_daily_users" :=
        VNum (match ud_website user_data with
              | [] => 0%Q
              | ws => (py_sum (map daily_users (drop (length ws - 7) ws)) / 7)%Q
              end) ]> ∅))).

(** The dictionary returned by [_generate_ai_insights]: five fixed keys. *)
Record Insights : Type := {
  ai_analysis : string;
  user_type : string;
  health_score : Z;
  churn_risk : string;
  growth_potential : Z
}.

(** [_generate_ai_insights], with the text of the chat completion as an
    argument.  The user type is computed first, for the prompt. *)
Definition _generate_ai_insights (ai_insights : string) (patterns : Patterns)
  : res Insights :=
  let* user_type := _determine_user_type patterns in
  Ret {| ai_analysis := ai_insights;
         user_type := user_type;
         health_score := _calculate_health_score patterns;
         churn_risk := _calculate_churn_risk patterns;
         growth_potential := _calculate_growth_potential patterns |}.

(** [_create_recommendations(insights)]: the three values it reads. *)
Definition recommendations_for (insights : Insights) : list Recommendation :=
  _create_recommendations (health_score insights) (growth_potential insights)
                          (user_type insights).

(** Steps 2 to 4 of [analyze_user_workflow], on the data fetched in step 1. *)
Definition analyze_user_data (ai_insights : string) (user_data : UserData)
  : res (Patterns * Insights * list Recommendation) :=
  let* patterns := _analyze_patterns user_data in
  let* insights := _generate_ai_insights ai_insights patterns in
  Ret (patterns, insights, recommendations_for insights).

(** [[r for r in recommendations if r['priority'] == 'high']] (line 406). *)
Definition high_priority_of (recommendations : list Recommendation)
  : list Recommendation :=
  List.filter (fun r => String.eqb (priority r) "high") recommendations.

(** The three rules of [_create_recommendations], in source order. *)
Definition revenue_recommendation : Recommendation :=
  {| rec_type := "revenue"; priority := "high";
     action := "Schedule customer success call";
     reason := "Health score below threshold";
     impact := "Reduce churn risk by 40%" |}.

Definition development_recommendation : Recommendation :=
  {| rec_type := "development"; priority := "medium";
     action := "Suggest code review automation";
     reason := "High PR volume detected";
     impact := "Save 5 hours per week" |}.

Definition growth_recommendation : Recommendation :=
  {| rec_type := "growth"; priority := "high";
     action := "Offer premium features";
     reason := "High engagement and growth potential";
     impact := "Potential 30% revenue increase" |}.

(** ** The scores read off the snapshot *)

(** The customer row exists and its engagement level (unknown if absent) is [level]. *)
Definition engagement_is (s : UserData) (level : string) : bool :=
  match ud_customer s with
  | Some c =>
    String.eqb (match engagement_level c with Some e => e | None => "unknown" end) level
  | None => false
  end.

(** The developer row exists and its productivity score (0 if absent) exceeds [q]. *)
Definition productivity_above (s : UserData) (q : Q) : bool :=
  match ud_developer s with
  | Some d => Qltb q (get_num (productivity_score d) 0)
  | None => false
  end.

(** The revenue of the last entry of the series, 0 for an empty series. *)
Definition latest_revenue (revenue_data : list RevenueEntry) : Q :=
  match last revenue_data with
  | Some r => revenue r
  | None => 0%Q
  end.

(** The orders low < moderate < active < very_active and
    basic < standard < premium < enterprise. *)
Definition activity_rank (level : string) : nat :=
  if String.eqb level "very_active" then 3
  else if String.eqb level "active" then 2
  else if String.eqb level "moderate" then 1
  else 0.

Definition ltv_rank (tier : string) : nat :=
  if String.eqb tier "enterprise" then 3
  else if String.eqb tier "premium" then 2
  else if String.eqb tier "standard" then 1
  else 0.

(** An alert carries a non-empty list of high-priority recommendations. *)
Definition well_formed_event (e : event) : Prop :=
  match e with
  | Alert _ recs =>
    recs <> [] /\ Forall (fun r => priority r = "high"%string) recs
  | _ => True
  end.

(** The lines that close the body of the loop for one account: the result
    of its analysis, success or failure. *)
Definition is_outcome_line (e : event) : bool :=
  match e with
  | Print line =>
    String.prefix "Analysis complete for user " line
    || String.prefix "Error analyzing user " line
  | _ => false
  end.

Definition outcome_lines (tr : list event) : nat :=
  length (List.filter is_outcome_line tr).

(** A run in which the analysis of user_456 is interrupted. *)
Definition interrupted_analysis (user_id : string) (calls : nat)
  : nat * (raised + list Recommendation) :=
  if String.eqb user_id "user_456"
  then (S calls, inl (BaseException "KeyboardInterrupt"))
  else (S calls, inr []).

(** A report whose churn risk is high. *)
Definition churning_report : Patterns :=
  {| revenue_patterns := {[ "trend" := VStr "declining" ]};
     development_patterns := {[ "activity_level" := VStr "very_active" ]};
     customer_patterns := {[ "engagement" := VStr "low" ]};
     website_patterns := ∅ |}.

(** A report whose growth potential exceeds 80. *)
Definition expanding_report : Patterns :=
  {| revenue_patterns := {[ "trend" := VStr "growing" ]};
     development_patterns := {[ "activity_level" := VStr "very_active" ]};
     customer_patterns := {[ "engagement" := VStr "low" ]};
     website_patterns := ∅ |}.

(** A first month: revenue but no growth rate yet. *)
Definition first_month : list RevenueEntry :=
  [ {| month := "2024-01"; revenue := 100%Q; growth_rate := None |} ].

(** A site that nobody visited for two days. *)
Definition empty_site : list WebsiteEntry :=
  [ {| daily_users := 0; new_users := 0; users := 0; bounce_rate := 0;
       sessions_per_user := 0 |};
    {| daily_users := 0; new_users := 0; users := 0; bounce_rate := 0;
       sessions_per_user := 0 |} ].

(** ** Trend detection in double precision (lines 275-288)

    [_detect_trend] above divides and multiplies exactly.  Python turns the
    integer sums into doubles by the division and multiplies by the doubles
    [1.1] and [0.9], each result rounded to the nearest double.  This is
    the same function on a series of integer counts in binary64 arithmetic:
    [spec_float] at precision 53 and maximal exponent 1024. *)










(** A developer row whose most active day is 3. *)
Definition midweek_developer : DeveloperRecord :=
  {| productivity_score := None; avg_pr_merge_time := None;
     most_active_day := Some 3; most_active_hour := None; total_prs := None |}.

(** A developer row without a most active day. *)
Definition dayless_developer : DeveloperRecord :=
  {| productivity_score := None; avg_pr_merge_time := None;
     most_active_day := None; most_active_hour := None; total_prs := None |}.

(** The health terms that come from the customer row and the developer row. *)
Definition engagement_term (s : UserData) : Z :=
  if engagement_is s "high" then 15
  else if engagement_is s "low" then -15
  else 0.

Definition productivity_term (s : UserData) : Z :=
  if productivity_above s 50 then 15 else 0.

(** * Properties *)

(** ** Basic facts *)

Lemma Qltb_lt (x y : Q) : Qltb x y = true <-> (x < y)%Q.
Proof.
  unfold Qltb. rewrite negb_true_iff. split.
  - intros H. apply Qnot_le_lt. intros Hle.
    apply Qle_bool_iff in Hle. congruence.
  - intros H. destruct (Qle_bool y x) eqn:E; [|reflexivity].
    apply Qle_bool_iff in E. exfalso. exact (Qlt_not_le _ _ H E).
Qed.

Lemma Qltb_nlt (x y : Q) : Qltb x y = false <-> ~ (x < y)%Q.
Proof.
  rewrite <- Qltb_lt. destruct (Qltb x y); split; congruence.
Qed.

Lemma _day_name_in_range (d : Z) :
  0 <= d <= 6 ->
  exists name, days !! Z.to_nat d = Some name /\ _day_name d = Ret name.
Proof.
  intros Hd.
  assert (Hcases : d = 0 \/ d = 1 \/ d = 2 \/ d = 3 \/ d = 4 \/ d = 5 \/ d = 6) by lia.
  destruct Hcases as [->|[->|[->|[->|[->|[->| ->]]]]]];
    eexists; split; reflexivity.
Qed.

Lemma _day_name_out_of_range (d : Z) :
  d < 0 \/ 6 < d -> _day_name d = Ret "Unknown"%string.
Proof.
  intros Hd. unfold _day_name.
  destruct (0 <=? d) eqn:E1; destruct (d <=? 6) eqn:E2; simpl; try reflexivity.
  apply Z.leb_le in E1. apply Z.leb_le in E2. lia.
Qed.

Lemma _day_name_total (d : Z) : exists name, _day_name d = Ret name.
Proof.
  destruct (Z_le_dec 0 d) as [H0|H0]; [destruct (Z_le_dec d 6) as [H6|H6]|].
  - destruct (_day_name_in_range d) as (name & _ & H); [lia|]. eauto.
  - exists "Unknown"%string. apply _day_name_out_of_range. lia.
  - exists "Unknown"%string. apply _day_name_out_of_range. lia.
Qed.

Lemma _analyze_dev_patterns_total (dev_data : option DeveloperRecord) :
  exists m, _analyze_dev_patterns dev_data = Ret m
            /\ m !! "productivity_score" = None.
Proof.
  destruct dev_data as [d|]; simpl.
  - destruct (_day_name_total (match most_active_day d with Some n => n | None => 0 end))
      as [name ->].
    simpl. eexists. split; [reflexivity|].
    by rewrite !lookup_insert_ne.
  - eexists. split; [reflexivity|]. by rewrite lookup_singleton_ne.
Qed.

Lemma _analyze_patterns_total (s : UserData) :
  exists dev,
    _analyze_dev_patterns (ud_developer s) = Ret dev
    /\ dev !! "productivity_score" = None
    /\ _analyze_patterns s =
       Ret {| revenue_patterns := _analyze_revenue_patterns (ud_revenue s);
              development_patterns := dev;
              customer_patterns := _analyze_customer_patterns (ud_customer s);
              website_patterns := _analyze_website_patterns (ud_website s) |}.
Proof.
  destruct (_analyze_dev_patterns_total (ud_developer s)) as (dev & Hdev & Hnone).
  exists dev. split; [exact Hdev|]. split; [exact Hnone|].
  unfold _analyze_patterns. rewrite Hdev. reflexivity.
Qed.

(** ** Ranges of the scores *)

Ltac case_conditions :=
  repeat match goal with
         | |- context [py_eq_str ?v ?s] =>
           let E := fresh "E" in destruct (py_eq_str v s) eqn:E
         end.

Lemma health_score_unclamped_range (p : Patterns) :
  15 <= health_score_unclamped p <= 100.
Proof.
  unfold health_score_unclamped. cbn [existsb].
  case_conditions; cbn [orb]; lia.
Qed.

Lemma growth_potential_unclamped_range (p : Patterns) :
  50 <= growth_potential_unclamped p <= 100.
Proof.
  unfold growth_potential_unclamped. case_conditions; lia.
Qed.

(** C3: for every snapshot the analysis yields a pattern report, and the
    health score and the growth potential computed from it are integers
    between 0 and 100 inclusive. *)
Theorem scores_between_0_and_100 (s : UserData) :
  exists p, _analyze_patterns s = Ret p
    /\ 0 <= _calculate_health_score p <= 100
    /\ 0 <= _calculate_growth_potential p <= 100.
Proof.
  destruct (_analyze_patterns_total s) as (dev & _ & _ & Hp).
  eexists. split; [exact Hp|].
  unfold _calculate_health_score, _calculate_growth_potential.
  split.
  - lia.
  - pose proof (growth_potential_unclamped_range
                  {| revenue_patterns := _analyze_revenue_patterns (ud_revenue s);
                     development_patterns := dev;
                     customer_patterns := _analyze_customer_patterns (ud_customer s);
                     website_patterns := _analyze_website_patterns (ud_website s) |}).
    lia.
Qed.

(** C10: for every pattern report the score before clamping lies in
    [15, 100] for health and in [50, 100] for growth, so the clamps return
    it unchanged; health is never below 15 and growth never below 50. *)
Theorem clamps_never_change_the_score (p : Patterns) :
  15 <= health_score_unclamped p <= 100
  /\ 50 <= growth_potential_unclamped p <= 100
  /\ _calculate_health_score p = health_score_unclamped p
  /\ _calculate_growth_potential p = growth_potential_unclamped p
  /\ 15 <= _calculate_health_score p
  /\ 50 <= _calculate_growth_potential p.
Proof.
  pose proof (health_score_unclamped_range p) as Hh.
  pose proof (growth_potential_unclamped_range p) as Hg.
  unfold _calculate_health_score, _calculate_growth_potential.
  repeat split; lia.
Qed.

(** ** Churn risk *)

Lemma churn_tier_monotone (c1 c2 : Z) :
  c1 <= c2 -> (tier_rank (churn_tier c1) <= tier_rank (churn_tier c2))%nat.
Proof.
  intros Hle. unfold churn_tier.
  destruct (4 <=? c1) eqn:A1; destruct (4 <=? c2) eqn:A2;
    destruct (2 <=? c1) eqn:B1; destruct (2 <=? c2) eqn:B2;
    cbn; try lia;
    repeat match goal with
           | H : (_ <=? _) = true |- _ => apply Z.leb_le in H
           | H : (_ <=? _) = false |- _ => apply Z.leb_gt in H
           end; lia.
Qed.

Lemma churn_tier_bands (c : Z) :
  (c <= 1 -> churn_tier c = "low"%string)
  /\ (2 <= c <= 3 -> churn_tier c = "medium"%string)
  /\ (4 <= c -> churn_tier c = "high"%string).
Proof.
  unfold churn_tier.
  destruct (4 <=? c) eqn:A; destruct (2 <=? c) eqn:B;
    repeat match goal with
           | H : (_ <=? _) = true |- _ => apply Z.leb_le in H
           | H : (_ <=? _) = false |- _ => apply Z.leb_gt in H
           end;
    repeat split; intros; try reflexivity; lia.
Qed.

(** C4: for every pattern report, churn risk is the tier of the count that
    adds 2 for a declining revenue trend, 2 for low customer engagement and
    1 for low website engagement quality; the count is between 0 and 5; the
    tier is high from 4, medium from 2, low below, and so never decreases
    when the count grows. *)
Theorem churn_risk_is_tier_of_count (p : Patterns) (c1 c2 : Z) :
  _calculate_churn_risk p =
    churn_tier (risk_count
                  (py_eq_str (revenue_patterns p !! "trend") "declining")
                  (py_eq_str (customer_patterns p !! "engagement") "low")
                  (py_eq_str (website_patterns p !! "engagement_quality") "low"))
  /\ risk_factors p =
     risk_count (py_eq_str (revenue_patterns p !! "trend") "declining")
                (py_eq_str (customer_patterns p !! "engagement") "low")
                (py_eq_str (website_patterns p !! "engagement_quality") "low")
  /\ 0 <= risk_factors p <= 5
  /\ (c1 <= 1 -> churn_tier c1 = "low"%string)
  /\ (2 <= c1 <= 3 -> churn_tier c1 = "medium"%string)
  /\ (4 <= c1 -> churn_tier c1 = "high"%string)
  /\ (c1 <= c2 -> (tier_rank (churn_tier c1) <= tier_rank (churn_tier c2))%nat).
Proof.
  assert (Hcount : risk_factors p =
     risk_count (py_eq_str (revenue_patterns p !! "trend") "declining")
                (py_eq_str (customer_patterns p !! "engagement") "low")
                (py_eq_str (website_patterns p !! "engagement_quality") "low")).
  { unfold risk_factors, risk_count. case_conditions; reflexivity. }
  split; [|split; [exact Hcount|split]].
  - unfold _calculate_churn_risk, churn_tier. rewrite Hcount. reflexivity.
  - rewrite Hcount. unfold risk_count. case_conditions; lia.
  - pose proof (churn_tier_bands c1) as (Hl & Hm & Hh).
    repeat split; auto using churn_tier_monotone.
Qed.

Lemma churn_risk_is_tier_of_count_witness :
  _calculate_churn_risk declining_low_low = "high"%string
  /\ churn_tier 3 = "medium"%string
  /\ (tier_rank (churn_tier 1) <= tier_rank (churn_tier 3))%nat.
Proof.
  pose proof (churn_risk_is_tier_of_count declining_low_low 3 4)
    as (Hrisk & _ & _ & _ & Hmed & _ & _).
  pose proof (churn_risk_is_tier_of_count declining_low_low 1 3)
    as (_ & _ & _ & _ & _ & _ & Hmono).
  split; [|split].
  - rewrite Hrisk. reflexivity.
  - apply Hmed. lia.
  - apply Hmono. lia.
Defined.

(** ** Day names *)

(** C8: the day lookup never raises: a day number outside 0..6 gives
    "Unknown", 0..6 give Sunday..Saturday, and the development pattern of a
    record carries that label under [most_active_day]: "Unknown" for a day
    outside 0..6, the day name for a day in 0..6, and Sunday, the name of
    the default 0, for a record without the field. *)
Theorem day_lookup_is_total (d : Z) (dev : DeveloperRecord) :
  (exists name, _day_name d = Ret name)
  /\ (d < 0 \/ 6 < d -> _day_name d = Ret "Unknown"%string)
  /\ (0 <= d <= 6 ->
      exists name, days !! Z.to_nat d = Some name /\ _day_name d = Ret name)
  /\ _day_name 0 = Ret "Sunday"%string
  /\ _day_name 1 = Ret "Monday"%string
  /\ _day_name 2 = Ret "Tuesday"%string
  /\ _day_name 3 = Ret "Wednesday"%string
  /\ _day_name 4 = Ret "Thursday"%string
  /\ _day_name 5 = Ret "Friday"%string
  /\ _day_name 6 = Ret "Saturday"%string
  /\ (most_active_day dev = Some d -> d < 0 \/ 6 < d ->
      exists m, _analyze_dev_patterns (Some dev) = Ret m
                /\ m !! "most_active_day" = Some (VStr "Unknown"))
  /\ (most_active_day dev = Some d -> 0 <= d <= 6 ->
      exists m name, _analyze_dev_patterns (Some dev) = Ret m
                     /\ days !! Z.to_nat d = Some name
                     /\ _day_name d = Ret name
                     /\ m !! "most_active_day" = Some (VStr name))
  /\ (most_active_day dev = None ->
      exists m, _analyze_dev_patterns (Some dev) = Ret m
                /\ m !! "most_active_day" = Some (VStr "Sunday")).
Proof.
  split; [apply _day_name_total|].
  split; [apply _day_name_out_of_range|].
  split; [apply _day_name_in_range|].
  repeat (split; [reflexivity|]).
  split; [|split].
  - intros Hday Hout. cbn [_analyze_dev_patterns]. rewrite Hday.
    rewrite (_day_name_out_of_range d Hout). cbn [res_bind].
    eexists. split; [reflexivity|].
    rewrite !lookup_insert_ne by done. by rewrite lookup_insert_eq.
  - intros Hday Hin. destruct (_day_name_in_range d Hin) as (name & Hnth & Hname).
    cbn [_analyze_dev_patterns]. rewrite Hday, Hname. cbn [res_bind].
    eexists. exists name. split; [reflexivity|].
    split; [exact Hnth|]. split; [reflexivity|].
    rewrite !lookup_insert_ne by done. by rewrite lookup_insert_eq.
  - intros Hday. cbn [_analyze_dev_patterns]. rewrite Hday.
    change (_day_name 0) with (Ret (A := string) "Sunday"). cbn [res_bind].
    eexists. split; [reflexivity|].
    rewrite !lookup_insert_ne by done. by rewrite lookup_insert_eq.
Qed.

Lemma day_lookup_is_total_witness :
  _day_name 9 = Ret "Unknown"%string
  /\ (exists name, days !! Z.to_nat 3 = Some name /\ _day_name 3 = Ret name)
  /\ (exists m, _analyze_dev_patterns (Some day_nine_developer) = Ret m
                /\ m !! "most_active_day" = Some (VStr "Unknown"))
  /\ (exists m name, _analyze_dev_patterns (Some midweek_developer) = Ret m
                     /\ days !! Z.to_nat 3 = Some name
                     /\ _day_name 3 = Ret name
                     /\ m !! "most_active_day" = Some (VStr name))
  /\ (exists m, _analyze_dev_patterns (Some dayless_developer) = Ret m
                /\ m !! "most_active_day" = Some (VStr "Sunday")).
Proof.
  pose proof (day_lookup_is_total 9 day_nine_developer)
    as (_ & Hout & _ & _ & _ & _ & _ & _ & _ & _ & Hdev & _).
  pose proof (day_lookup_is_total 3 midweek_developer)
    as (_ & _ & Hin & _ & _ & _ & _ & _ & _ & _ & _ & Hmid & _).
  pose proof (day_lookup_is_total 0 dayless_developer)
    as (_ & _ & _ & _ & _ & _ & _ & _ & _ & _ & _ & _ & Hnone).
  split; [apply Hout; right; lia|].
  split; [apply Hin; lia|].
  split; [apply Hdev; [reflexivity | right; lia]|].
  split; [apply Hmid; [reflexivity | lia]|].
  apply Hnone. reflexivity.
Defined.

(** ** Empty revenue series *)

Lemma no_data_has_no_other_key (k : string) :
  k <> "status"%string ->
  ({[ "status" := VStr "no_data" ]} : gmap string value) !! k = None.
Proof. intros Hk. by rewrite lookup_singleton_ne. Qed.

(** C5: for every snapshot with an empty revenue series the revenue pattern
    is exactly the dictionary with the single entry status = no_data, and
    the health score and the growth potential are the scores computed with
    no revenue term at all. *)
Theorem empty_revenue_is_neutral (s : UserData) :
  ud_revenue s = [] ->
  exists p, _analyze_patterns s = Ret p
    /\ revenue_patterns p = {[ "status" := VStr "no_data" ]}
    /\ _calculate_health_score p = health_without_revenue p
    /\ _calculate_growth_potential p = growth_without_revenue p.
Proof.
  intros Hrev.
  destruct (_analyze_patterns_total s) as (dev & _ & _ & Hp).
  rewrite Hrev in Hp. eexists. split; [exact Hp|].
  split; [reflexivity|].
  unfold _calculate_health_score, health_without_revenue,
    health_score_unclamped, engagement_delta, activity_bonus,
    _calculate_growth_potential, growth_without_revenue,
    growth_potential_unclamped, very_active_bonus, traffic_bonus, clamp_0_100.
  cbn [revenue_patterns development_patterns customer_patterns website_patterns
       _analyze_revenue_patterns existsb].
  rewrite (no_data_has_no_other_key "trend") by done.
  cbn [py_eq_str].
  split; case_conditions; cbn [orb]; lia.
Qed.

(** ** Traffic trend *)

Lemma half_le (n : nat) : (n / 2 <= n)%nat.
Proof. apply Nat.Div0.div_le_upper_bound. lia. Qed.

Lemma _detect_trend_is_split_half (values : list Q) :
  (2 <= length values)%nat ->
  let h := (length values / 2)%nat in
  let m1 := mean (take h values) in
  let m2 := mean (drop h values) in
  _detect_trend values =
    (if Qltb (m1 * (11 # 10)) m2 then "growing"
     else if Qltb m2 (m1 * (9 # 10)) then "declining"
     else "stable")%string.
Proof.
  intros Hlen h m1 m2. unfold _detect_trend.
  destruct (length values <? 2)%nat eqn:E; [apply Nat.ltb_lt in E; lia|].
  subst m1 m2. unfold mean, py_len.
  rewrite length_take, length_drop.
  pose proof (half_le (length values)) as Hh. fold h in Hh |- *.
  replace (h `min` length values)%nat with h by lia.
  reflexivity.
Qed.




Lemma empty_revenue_is_neutral_witness :
  exists p, _analyze_patterns quiet_snapshot = Ret p
    /\ revenue_patterns p = {[ "status" := VStr "no_data" ]}
    /\ _calculate_health_score p = health_without_revenue p
    /\ _calculate_growth_potential p = growth_without_revenue p.
Proof. apply (empty_revenue_is_neutral quiet_snapshot). reflexivity. Defined.


(** ** Scenario A *)

(** C7: in scenario A (growth rates 5 and 8, customer engagement high,
    productivity score 60, every other field arbitrary) the revenue trend is
    growing, the stability is stable, and the health score is
    50 + 20 + 15 + 15 = 100. *)
Theorem scenario_A_health_is_100 (m1 m2 : string) (r1 r2 : Q)
    (ltv invoices : option Q) (stripe shopify : option string)
    (merge_time : option Q) (day : option Z) (hour prs : option Q)
    (ws : list WebsiteEntry) :
  exists p,
    _analyze_patterns
      (scenario_A m1 m2 r1 r2 ltv invoices stripe shopify merge_time day hour prs ws)
    = Ret p
    /\ revenue_patterns p !! "trend" = Some (VStr "growing")
    /\ revenue_patterns p !! "revenue_stability" = Some (VStr "stable")
    /\ customer_patterns p !! "engagement" = Some (VStr "high")
    /\ development_patterns p !! "activity_level" = Some (VStr "active")
    /\ health_score_unclamped p = 50 + 20 + 15 + 15
    /\ _calculate_health_score p = 100.
Proof.
  set (s := scenario_A m1 m2 r1 r2 ltv invoices stripe shopify merge_time day hour prs ws).
  destruct (_analyze_patterns_total s) as (dev & Hdev & _ & Hp).
  eexists. split; [exact Hp|].
  cbn [revenue_patterns development_patterns customer_patterns website_patterns].
  assert (Htrend : _analyze_revenue_patterns (ud_revenue s) !! "trend"
                   = Some (VStr "growing")).
  { subst s. cbn [ud_revenue scenario_A _analyze_revenue_patterns].
    by rewrite lookup_insert_eq. }
  assert (Hstab : _analyze_revenue_patterns (ud_revenue s) !! "revenue_stability"
                  = Some (VStr "stable")).
  { subst s. cbn [ud_revenue scenario_A _analyze_revenue_patterns].
    rewrite !lookup_insert_ne by done. by rewrite lookup_insert_eq. }
  assert (Heng : _analyze_customer_patterns (ud_customer s) !! "engagement"
                 = Some (VStr "high")).
  { subst s. cbn [ud_customer scenario_A _analyze_customer_patterns].
    rewrite !lookup_insert_ne by done. by rewrite lookup_insert_eq. }
  assert (Hact : dev !! "activity_level" = Some (VStr "active")).
  { subst s. cbn [ud_developer scenario_A _analyze_dev_patterns] in Hdev.
    destruct (_day_name_total (match day with Some n => n | None => 0 end))
      as [name Hname].
    cbn [most_active_day] in Hdev. rewrite Hname in Hdev.
    cbn [res_bind] in Hdev. injection Hdev as <-.
    by rewrite lookup_insert_eq. }
  repeat (split; [assumption|]).
  assert (Hraw :
    health_score_unclamped
      {| revenue_patterns := _analyze_revenue_patterns (ud_revenue s);
         development_patterns := dev;
         customer_patterns := _analyze_customer_patterns (ud_customer s);
         website_patterns := _analyze_website_patterns (ud_website s) |}
    = 50 + 20 + 15 + 15).
  { unfold health_score_unclamped.
    cbn [revenue_patterns development_patterns customer_patterns website_patterns].
    rewrite Htrend, Heng, Hact. reflexivity. }
  split; [exact Hraw|].
  unfold _calculate_health_score. rewrite Hraw. reflexivity.
Qed.

(** ** User type *)

Lemma revenue_patterns_mrr_is_number (revenue_data : list RevenueEntry) :
  exists x, get_default (_analyze_revenue_patterns revenue_data) "current_mrr" (VNum 0)
            = VNum x.
Proof.
  unfold get_default. destruct revenue_data as [|r rs].
  - cbn [_analyze_revenue_patterns].
    rewrite (no_data_has_no_other_key "current_mrr") by done. eauto.
  - cbn [_analyze_revenue_patterns].
    rewrite !lookup_insert_ne by done. rewrite lookup_insert_eq. eauto.
Qed.

Lemma user_type_of_snapshot (s : UserData) :
  exists p t, _analyze_patterns s = Ret p
    /\ development_patterns p !! "productivity_score" = None
    /\ _determine_user_type p = Ret t
    /\ t <> "technical_founder"%string /\ t <> "developer"%string.
Proof.
  destruct (_analyze_patterns_total s) as (dev & _ & Hnone & Hp).
  destruct (revenue_patterns_mrr_is_number (ud_revenue s)) as [x Hx].
  eexists.
  exists (if Qltb 5000 x then "enterprise_customer"
          else if Qltb 500 x then "business_customer" else "standard_user")%string.
  split; [exact Hp|]. split; [exact Hnone|].
  unfold _determine_user_type.
  cbn [revenue_patterns development_patterns].
  assert (Hscore : get_default dev "productivity_score" (VNum 0) = VNum 0)
    by (unfold get_default; by rewrite Hnone).
  rewrite Hscore, Hx. cbn [py_gt res_bind].
  change (Qltb 50 0) with false. cbn iota. cbn [res_bind].
  destruct (Qltb 5000 x); [repeat split; done|].
  destruct (Qltb 500 x); repeat split; done.
Qed.

(** C1: the development pattern built by [_analyze_dev_patterns] has no
    [productivity_score] entry, so [_determine_user_type] reads the default
    0 for every snapshot and never answers technical_founder or developer.
    For the snapshot with productivity score 60 and a last month of 2000 the
    activity level is active, yet the user type is business_customer. *)
Theorem user_type_ignores_productivity_score :
  (forall s, exists p t, _analyze_patterns s = Ret p
     /\ development_patterns p !! "productivity_score" = None
     /\ _determine_user_type p = Ret t
     /\ t <> "technical_founder"%string /\ t <> "developer"%string)
  /\ productivity_score <$> ud_developer founder_snapshot = Some (Some 60%Q)
  /\ exists p, _analyze_patterns founder_snapshot = Ret p
       /\ development_patterns p !! "activity_level" = Some (VStr "active")
       /\ revenue_patterns p !! "current_mrr" = Some (VNum 2000)
       /\ _determine_user_type p = Ret "business_customer"%string.
Proof.
  split; [exact user_type_of_snapshot|].
  split; [reflexivity|].
  eexists. split; [vm_compute; reflexivity|].
  repeat split; vm_compute; reflexivity.
Qed.

Lemma _determine_user_type_priority (p : Patterns) (d m : Q) :
  development_patterns p !! "productivity_score" = Some (VNum d) ->
  revenue_patterns p !! "current_mrr" = Some (VNum m) ->
  _determine_user_type p =
    Ret (if Qltb 50 d && Qltb 1000 m then "technical_founder"
         else if Qltb 50 d then "developer"
         else if Qltb 5000 m then "enterprise_customer"
         else if Qltb 500 m then "business_customer"
         else "standard_user")%string.
Proof.
  intros Hd Hm. unfold _determine_user_type, get_default. rewrite Hd, Hm.
  cbn [py_gt res_bind].
  destruct (Qltb 50 d); cbn [res_bind andb].
  - destruct (Qltb 1000 m); reflexivity.
  - destruct (Qltb 5000 m); [reflexivity|].
    cbn [res_bind]. destruct (Qltb 500 m); reflexivity.
Qed.

(** ** Average growth rate *)

Lemma growth_rates_of_nonzero (revenue_data : list RevenueEntry) :
  (forall r g, r ∈ revenue_data -> growth_rate r = Some g -> ~ (g == 0)%Q) ->
  growth_rates_of revenue_data = omap growth_rate revenue_data.
Proof.
  unfold growth_rates_of.
  induction revenue_data as [|r rs IH]; intros Hnz; [reflexivity|].
  cbn [omap list_omap].
  rewrite IH by (intros r' g Hin; apply Hnz; by right).
  destruct (growth_rate r) as [g|] eqn:Eg; cbn [truthy_num]; [|reflexivity].
  destruct (Qeq_bool g 0) eqn:Ez; [|reflexivity].
  apply Qeq_bool_iff in Ez. exfalso. apply (Hnz r g); [by left|done|done].
Qed.

Lemma avg_growth_rate_without_zero_rates (revenue_data : list RevenueEntry) :
  revenue_data <> [] ->
  (forall r g, r ∈ revenue_data -> growth_rate r = Some g -> ~ (g == 0)%Q) ->
  _analyze_revenue_patterns revenue_data !! "avg_growth_rate"
  = Some (VNum (mean_of_present_growth_rates revenue_data)).
Proof.
  intros Hne Hnz. destruct revenue_data as [|r rs]; [done|].
  cbn [_analyze_revenue_patterns].
  rewrite lookup_insert_ne by done. rewrite lookup_insert_eq.
  rewrite (growth_rates_of_nonzero (r :: rs) Hnz).
  unfold mean_of_present_growth_rates, mean.
  destruct (omap growth_rate (r :: rs)); reflexivity.
Qed.

(** C2: the comprehension of line 96 keeps an entry only when its growth
    rate is truthy, so a growth rate of exactly 0 is dropped although it is
    present: for the two months with growth rates 0 and 10 the reported
    average is 10, while the mean of the present growth rates is 5. *)
Theorem avg_growth_rate_drops_zero_rates :
  omap growth_rate flat_then_up = [0; 10]%Q
  /\ growth_rates_of flat_then_up = [10%Q]
  /\ _analyze_revenue_patterns flat_then_up !! "avg_growth_rate" = Some (VNum 10)
  /\ (mean_of_present_growth_rates flat_then_up == 5)%Q
  /\ ~ (10 == mean_of_present_growth_rates flat_then_up)%Q.
Proof.
  split; [reflexivity|]. split; [reflexivity|].
  split; [vm_compute; reflexivity|].
  split; [vm_compute; reflexivity|].
  vm_compute. discriminate.
Qed.

(** ** The batch loop *)

Section BatchProperties.
Context {World : Type}.
Variable analyze_user_workflow :
  string -> World -> World * (raised + list Recommendation).
Variable send_alert :
  string -> list Recommendation -> World -> World * (raised + unit).

Lemma try_body_analyzed (user_id : string) (w : World) :
  analyzed (try_body analyze_user_workflow send_alert user_id w).1.2 = [user_id].
Proof.
  unfold try_body.
  destruct (analyze_user_workflow user_id w) as [w1 [e|recs]]; [reflexivity|].
  destruct (List.filter _ recs) as [|r hp]; [reflexivity|].
  destruct (send_alert user_id (r :: hp) w1) as [w2 [e|[]]]; reflexivity.
Qed.

Lemma try_body_raises (user_id : string) (w w1 : World) (ev : list event)
    (e : raised) :
  try_body analyze_user_workflow send_alert user_id w = (w1, ev, inl e) ->
  (exists w0, analyze_user_workflow user_id w = (w0, inl e))
  \/ (exists w0 hp, send_alert user_id hp w0 = (w1, inl e)).
Proof.
  unfold try_body.
  destruct (analyze_user_workflow user_id w) as [w0 [e0|recs]] eqn:Ea.
  - intros [= <- <- <-]. left. eauto.
  - destruct (List.filter _ recs) as [|r hp]; [discriminate|].
    destruct (send_alert user_id (r :: hp) w0) as [w2 [e0|[]]] eqn:Es;
      [|discriminate].
    intros [= <- <- <-]. right. eauto.
Qed.

Hypothesis analyze_raises_exceptions : forall user_id w w1 msg,
  analyze_user_workflow user_id w <> (w1, inl (BaseException msg)).
Hypothesis alert_raises_exceptions : forall user_id recs w w1 msg,
  send_alert user_id recs w <> (w1, inl (BaseException msg)).

Lemma for_each_user_completes (active_users : list string) (w : World) :
  exists w' tr,
    for_each_user analyze_user_workflow send_alert active_users w = (w', tr, None)
    /\ analyzed tr = active_users.
Proof.
  revert w. induction active_users as [|user_id rest IH]; intros w.
  - exists w, []. split; reflexivity.
  - cbn [for_each_user].
    pose proof (try_body_analyzed user_id w) as Hev.
    destruct (try_body analyze_user_workflow send_alert user_id w)
      as [[w1 ev] [e|u]] eqn:Ebody; cbn [fst snd] in Hev.
    + destruct e as [msg|msg].
      * destruct (IH w1) as (w2 & tr & -> & Htr).
        exists w2. eexists. split; [reflexivity|].
        unfold analyzed in *. rewrite omap_app. cbn [omap list_omap].
        rewrite Hev, Htr. reflexivity.
      * exfalso. apply try_body_raises in Ebody.
        destruct Ebody as [[w0 H]|(w0 & hp & H)].
        -- exact (analyze_raises_exceptions _ _ _ _ H).
        -- exact (alert_raises_exceptions _ _ _ _ _ H).
    + destruct (IH w1) as (w2 & tr & -> & Htr).
      exists w2. eexists. split; [reflexivity|].
      unfold analyzed in *. rewrite omap_app, Hev, Htr. reflexivity.
Qed.

(** C9: whatever the account list, and whichever accounts fail with an
    [Exception] in the analysis or in the alert, the batch ends normally
    with its closing line, the analysis was started for every account of
    the list, in order; and when the body fails for one account, the loop
    prints the error and goes on with the rest of the list from the state
    the failure left. *)
Theorem batch_survives_account_failures (active_users : list string) (w : World) :
  (exists w' tr,
     run_daily_analysis analyze_user_workflow send_alert active_users w
     = (w', tr, None)
     /\ analyzed tr = active_users
     /\ last tr = Some (Print "Daily analysis complete"))
  /\ (forall user_id rest w0 w1 ev msg,
        try_body analyze_user_workflow send_alert user_id w0
        = (w1, ev, inl (Exception msg)) ->
        exists w2 tr,
          for_each_user analyze_user_workflow send_alert rest w1 = (w2, tr, None)
          /\ analyzed tr = rest
          /\ for_each_user analyze_user_workflow send_alert (user_id :: rest) w0
             = (w2,
                ev ++ Print ("Error analyzing user " ++ user_id ++ ": " ++ msg) :: tr,
                None)).
Proof.
  split.
  - destruct (for_each_user_completes active_users w) as (w' & tr & Hrun & Htr).
    unfold run_daily_analysis. rewrite Hrun.
    exists w'. eexists. split; [reflexivity|]. split.
    + unfold analyzed in *. rewrite omap_app, Htr. cbn. apply app_nil_r.
    + apply last_snoc.
  - intros user_id rest w0 w1 ev msg Hbody.
    destruct (for_each_user_completes rest w1) as (w2 & tr & Hrun & Htr).
    exists w2, tr. split; [exact Hrun|]. split; [exact Htr|].
    cbn [for_each_user]. rewrite Hbody, Hrun. reflexivity.
Qed.
End BatchProperties.

Lemma batch_survives_account_failures_witness :
  (exists w' tr,
     run_daily_analysis flaky_analysis silent_alert three_users 0%nat = (w', tr, None)
     /\ analyzed tr = three_users
     /\ last tr = Some (Print "Daily analysis complete"))
  /\ exists w2 tr,
       for_each_user flaky_analysis silent_alert ["user_789"] 3%nat = (w2, tr, None)
       /\ analyzed tr = ["user_789"]
       /\ for_each_user flaky_analysis silent_alert ["user_456"; "user_789"] 2%nat
          = (w2,
             [Print "Analyzing user user_456..."; Analyze "user_456"]
             ++ Print "Error analyzing user user_456: timeout" :: tr,
             None).
Proof.
  assert (Ha : forall user_id (w w1 : nat) msg,
             flaky_analysis user_id w <> (w1, inl (BaseException msg))).
  { intros user_id w w1 msg. unfold flaky_analysis.
    destruct (String.eqb user_id "user_456"); discriminate. }
  assert (Hs : forall user_id recs (w w1 : nat) msg,
             silent_alert user_id recs w <> (w1, inl (BaseException msg))).
  { intros user_id recs w w1 msg. discriminate. }
  destruct (batch_survives_account_failures flaky_analysis silent_alert Ha Hs
              three_users 0%nat) as [Hrun Hcaught].
  split; [exact Hrun|].
  apply (Hcaught "user_456"%string ["user_789"%string] 2%nat 3%nat
           [Print "Analyzing user user_456..."; Analyze "user_456"] "timeout"%string).
  reflexivity.
Defined.

(** * Further properties of the scorer *)

(** ** The pattern report of a snapshot *)

Lemma activity_level_of_developer (d : DeveloperRecord) :
  exists m, _analyze_dev_patterns (Some d) = Ret m
            /\ m !! "activity_level"
               = Some (VStr (_categorize_activity (get_num (productivity_score d) 0))).
Proof.
  cbn [_analyze_dev_patterns].
  destruct (_day_name_total (match most_active_day d with Some n => n | None => 0 end))
    as [name ->].
  cbn [res_bind]. eexists. split; [reflexivity|]. by rewrite lookup_insert_eq.
Qed.

Lemma _categorize_activity_active (x : Q) :
  existsb (py_eq_str (Some (VStr (_categorize_activity x)))) ["active"; "very_active"]%string
  = Qltb 50 x.
Proof.
  unfold _categorize_activity.
  destruct (Qltb 100 x) eqn:E100; destruct (Qltb 50 x) eqn:E50;
    destruct (Qltb 20 x); try reflexivity.
  all: apply Qltb_lt in E100; apply Qltb_nlt in E50; exfalso; apply E50;
    apply Qlt_trans with 100%Q; [reflexivity | exact E100].
Qed.

Lemma _categorize_activity_very_active (x : Q) :
  py_eq_str (Some (VStr (_categorize_activity x))) "very_active" = Qltb 100 x.
Proof.
  unfold _categorize_activity.
  destruct (Qltb 100 x); destruct (Qltb 50 x); destruct (Qltb 20 x); reflexivity.
Qed.

Lemma patterns_of_snapshot (s : UserData) :
  exists p, _analyze_patterns s = Ret p
    /\ revenue_patterns p = _analyze_revenue_patterns (ud_revenue s)
    /\ customer_patterns p = _analyze_customer_patterns (ud_customer s)
    /\ website_patterns p = _analyze_website_patterns (ud_website s)
    /\ existsb (py_eq_str (development_patterns p !! "activity_level"))
               ["active"; "very_active"]%string = productivity_above s 50
    /\ py_eq_str (development_patterns p !! "activity_level") "very_active"
       = productivity_above s 100.
Proof.
  destruct (_analyze_patterns_total s) as (dev & Hdev & _ & Hp).
  eexists. split; [exact Hp|].
  cbn [revenue_patterns development_patterns customer_patterns website_patterns].
  repeat (split; [reflexivity|]).
  unfold productivity_above. destruct (ud_developer s) as [d|].
  - destruct (activity_level_of_developer d) as (m & Hm & Hlevel).
    rewrite Hm in Hdev. injection Hdev as <-. rewrite Hlevel.
    split; [apply _categorize_activity_active|apply _categorize_activity_very_active].
  - cbn [_analyze_dev_patterns] in Hdev. injection Hdev as <-.
    rewrite (no_data_has_no_other_key "activity_level") by done.
    split; reflexivity.
Qed.

Lemma trend_label_of_revenue (revenue_data : list RevenueEntry) :
  (revenue_data = [] ->
   _analyze_revenue_patterns revenue_data !! "trend" = None)
  /\ (revenue_data <> [] ->
      _analyze_revenue_patterns revenue_data !! "trend" = Some (VStr "growing")
      \/ _analyze_revenue_patterns revenue_data !! "trend" = Some (VStr "declining")).
Proof.
  destruct revenue_data as [|r rs].
  - split; [intros _|intros H; by destruct H].
    cbn [_analyze_revenue_patterns].
    by rewrite (no_data_has_no_other_key "trend").
  - split; [intros H; discriminate H|intros _].
    cbn [_analyze_revenue_patterns]. rewrite lookup_insert_eq.
    destruct (Qltb 0 (py_sum (growth_rates_of (r :: rs)))); [by left|by right].
Qed.

Lemma engagement_of_customer (s : UserData) (level : string) :
  py_eq_str (_analyze_customer_patterns (ud_customer s) !! "engagement") level
  = engagement_is s level.
Proof.
  unfold engagement_is. destruct (ud_customer s) as [c|].
  - cbn [_analyze_customer_patterns].
    rewrite lookup_insert_ne by done. rewrite lookup_insert_eq. reflexivity.
  - cbn [_analyze_customer_patterns].
    by rewrite (no_data_has_no_other_key "engagement").
Qed.

Lemma health_score_terms (p : Patterns) (s : UserData) :
  customer_patterns p = _analyze_customer_patterns (ud_customer s) ->
  existsb (py_eq_str (development_patterns p !! "activity_level"))
          ["active"; "very_active"]%string = productivity_above s 50 ->
  _calculate_health_score p =
    50 + (if py_eq_str (revenue_patterns p !! "trend") "growing" then 20
          else if py_eq_str (revenue_patterns p !! "trend") "declining" then -20
          else 0)
       + engagement_term s + productivity_term s.
Proof.
  intros Hcust Hact.
  unfold _calculate_health_score, health_score_unclamped,
    engagement_term, productivity_term.
  rewrite Hact, Hcust, !engagement_of_customer.
  destruct (py_eq_str (revenue_patterns p !! "trend") "growing"),
    (py_eq_str (revenue_patterns p !! "trend") "declining"),
    (engagement_is s "high"), (engagement_is s "low"), (productivity_above s 50);
    reflexivity.
Qed.

(** X1: the health score of a snapshot is 50, plus 15 (minus 15) when the
    customer row exists with engagement level exactly high (low), plus 15
    when the developer row exists with a productivity score above 50, and a
    revenue term: nothing for an empty revenue series; for a non-empty one
    the trend label is growing or declining and the term is plus 20 or
    minus 20 with it, never absent. *)
Theorem health_score_of_snapshot (s : UserData) :
  exists p, _analyze_patterns s = Ret p
    /\ (ud_revenue s = [] ->
        _calculate_health_score p = 50 + engagement_term s + productivity_term s)
    /\ (ud_revenue s <> [] ->
        (revenue_patterns p !! "trend" = Some (VStr "growing")
         /\ _calculate_health_score p
            = 50 + 20 + engagement_term s + productivity_term s)
        \/ (revenue_patterns p !! "trend" = Some (VStr "declining")
            /\ _calculate_health_score p
               = 50 - 20 + engagement_term s + productivity_term s)).
Proof.
  destruct (patterns_of_snapshot s) as (p & Hp & Hrev & Hcust & _ & Hact & _).
  exists p. split; [exact Hp|].
  rewrite (health_score_terms p s Hcust Hact), Hrev.
  destruct (trend_label_of_revenue (ud_revenue s)) as [Hempty Hfull].
  split.
  - intros He. rewrite (Hempty He). cbn [py_eq_str]. lia.
  - intros Hne. destruct (Hfull Hne) as [Hl|Hl]; [left|right];
      (split; [exact Hl|]); rewrite Hl; reflexivity.
Qed.

Lemma health_score_of_snapshot_witness :
  exists p, _analyze_patterns founder_snapshot = Ret p
    /\ _calculate_health_score p = 85.
Proof.
  destruct (health_score_of_snapshot founder_snapshot) as (p & Hp & _ & Hfull).
  exists p. split; [exact Hp|].
  destruct Hfull as [[_ ->]|[Hdecl _]]; [discriminate|reflexivity|].
  vm_compute in Hp. injection Hp as <-. vm_compute in Hdecl. discriminate Hdecl.
Defined.

(** X2: the growth potential of a snapshot is 50, plus 20 when the trend
    label of its revenue pattern is growing, plus 20 when the developer row
    exists with a productivity score above 100, plus 10 when the traffic
    trend label of its website pattern is growing.  The revenue term is
    absent for an empty revenue series, the developer term for an absent
    developer row, the website term for fewer than two website entries. *)
Theorem growth_potential_of_snapshot (s : UserData) :
  exists p, _analyze_patterns s = Ret p
    /\ _calculate_growth_potential p =
       50 + revenue_growth_bonus p
          + (if productivity_above s 100 then 20 else 0)
          + traffic_bonus p
    /\ (ud_revenue s = [] -> revenue_growth_bonus p = 0)
    /\ (ud_developer s = None -> productivity_above s 100 = false)
    /\ ((length (ud_website s) < 2)%nat -> traffic_bonus p = 0).
Proof.
  destruct (patterns_of_snapshot s) as (p & Hp & Hrev & _ & Hweb & _ & Hvery).
  exists p. split; [exact Hp|]. split; [|split; [|split]].
  - unfold _calculate_growth_potential, growth_potential_unclamped,
      revenue_growth_bonus, traffic_bonus.
    rewrite Hvery.
    destruct (py_eq_str (revenue_patterns p !! "trend") "growing"),
      (productivity_above s 100),
      (py_eq_str (website_patterns p !! "traffic_trend") "growing"); reflexivity.
  - intros He. unfold revenue_growth_bonus. rewrite Hrev.
    by rewrite (proj1 (trend_label_of_revenue _) He).
  - intros Hnone. unfold productivity_above. by rewrite Hnone.
  - intros Hlen. unfold traffic_bonus. rewrite Hweb.
    destruct (ud_website s) as [|w [|w' ws]]; [| |cbn in Hlen; lia].
    + cbn [_analyze_website_patterns].
      by rewrite (no_data_has_no_other_key "traffic_trend").
    + cbn [_analyze_website_patterns]. by rewrite lookup_insert_eq.
Qed.

Lemma growth_potential_of_snapshot_witness :
  exists p, _analyze_patterns quiet_snapshot = Ret p
    /\ _calculate_growth_potential p = 50.
Proof.
  destruct (growth_potential_of_snapshot quiet_snapshot)
    as (p & Hp & Hsum & Hrev & Hdev & Hweb).
  exists p. split; [exact Hp|].
  rewrite Hsum, (Hrev eq_refl), (Hdev eq_refl), Hweb by (cbn; lia).
  reflexivity.
Defined.

(** X3: the churn risk of a snapshot is high exactly when the trend label
    of its revenue pattern is declining and the customer row has engagement
    level low, medium when exactly one of the two holds and low when
    neither does; the website series plays no part.  The label is never
    declining for an empty revenue series, and for a non-empty series it is
    declining exactly when it is not growing. *)
Theorem churn_risk_of_snapshot (s : UserData) :
  exists p, _analyze_patterns s = Ret p
    /\ _calculate_churn_risk p =
       (if py_eq_str (revenue_patterns p !! "trend") "declining"
           && engagement_is s "low" then "high"
        else if py_eq_str (revenue_patterns p !! "trend") "declining"
                || engagement_is s "low" then "medium"
        else "low")%string
    /\ (ud_revenue s = [] ->
        py_eq_str (revenue_patterns p !! "trend") "declining" = false)
    /\ (ud_revenue s <> [] ->
        py_eq_str (revenue_patterns p !! "trend") "declining"
        = negb (py_eq_str (revenue_patterns p !! "trend") "growing")).
Proof.
  destruct (patterns_of_snapshot s) as (p & Hp & Hrev & Hcust & _ & _ & _).
  exists p. split; [exact Hp|].
  destruct (trend_label_of_revenue (ud_revenue s)) as [Hempty Hfull].
  split; [|split].
  - unfold _calculate_churn_risk, risk_factors.
    rewrite Hcust, engagement_of_customer.
    destruct (py_eq_str (revenue_patterns p !! "trend") "declining"),
      (engagement_is s "low"),
      (py_eq_str (website_patterns p !! "engagement_quality") "low"); reflexivity.
  - intros He. by rewrite Hrev, (Hempty He).
  - intros Hne. rewrite Hrev. destruct (Hfull Hne) as [-> | ->]; reflexivity.
Qed.

Lemma churn_risk_of_snapshot_witness :
  exists p, _analyze_patterns quiet_snapshot = Ret p
    /\ _calculate_churn_risk p = "low"%string.
Proof.
  destruct (churn_risk_of_snapshot quiet_snapshot) as (p & Hp & Hrisk & Hempty & _).
  exists p. split; [exact Hp|].
  rewrite Hrisk, (Hempty eq_refl). reflexivity.
Defined.

(** ** How the three scores relate *)

(** X4: the website pattern never changes the churn tier: the single point
    it can add moves the count from 0 to 1, from 2 to 3 or from 4 to 5,
    and each pair lies in one tier. *)
Theorem churn_risk_ignores_website (p : Patterns) (other_website : gmap string value) :
  _calculate_churn_risk
    {| revenue_patterns := revenue_patterns p;
       development_patterns := development_patterns p;
       customer_patterns := customer_patterns p;
       website_patterns := other_website |}
  = _calculate_churn_risk p.
Proof.
  unfold _calculate_churn_risk, risk_factors.
  cbn [revenue_patterns development_patterns customer_patterns website_patterns].
  case_conditions; reflexivity.
Qed.

Lemma high_churn_needs_both (p : Patterns) :
  _calculate_churn_risk p = "high"%string ->
  py_eq_str (revenue_patterns p !! "trend") "declining" = true
  /\ py_eq_str (customer_patterns p !! "engagement") "low" = true.
Proof.
  unfold _calculate_churn_risk, risk_factors.
  case_conditions; cbn; intros H; try discriminate H; split; reflexivity.
Qed.

Lemma py_eq_str_exclusive (v : option value) (s t : string) :
  s <> t -> py_eq_str v s = true -> py_eq_str v t = false.
Proof.
  intros Hne. destruct v as [[u| |]|]; cbn; try discriminate.
  intros Hs. apply String.eqb_eq in Hs. subst u.
  by apply String.eqb_neq.
Qed.

(** X5: a report with high churn risk has a health score of at most 30 and
    a growth potential of at most 80, so the customer success call is always
    recommended for it and the premium offer never. *)
Theorem high_churn_means_poor_health (p : Patterns) (user_type : string) :
  _calculate_churn_risk p = "high"%string ->
  _calculate_health_score p <= 30
  /\ _calculate_growth_potential p <= 80
  /\ In revenue_recommendation
        (_create_recommendations (_calculate_health_score p)
                                 (_calculate_growth_potential p) user_type)
  /\ ~ In growth_recommendation
          (_create_recommendations (_calculate_health_score p)
                                   (_calculate_growth_potential p) user_type).
Proof.
  intros Hhigh. destruct (high_churn_needs_both p Hhigh) as [Hdecl Hlow].
  assert (Hgrow : py_eq_str (revenue_patterns p !! "trend") "growing" = false)
    by (by apply (py_eq_str_exclusive _ "declining")).
  assert (Hnothigh : py_eq_str (customer_patterns p !! "engagement") "high" = false)
    by (by apply (py_eq_str_exclusive _ "low")).
  assert (Hh : _calculate_health_score p <= 30).
  { unfold _calculate_health_score, health_score_unclamped. cbn [existsb].
    rewrite Hgrow, Hdecl, Hnothigh, Hlow. case_conditions; cbn [orb]; lia. }
  assert (Hg : _calculate_growth_potential p <= 80).
  { unfold _calculate_growth_potential, growth_potential_unclamped.
    rewrite Hgrow. case_conditions; lia. }
  split; [exact Hh|]. split; [exact Hg|].
  unfold _create_recommendations.
  destruct (_calculate_health_score p <? 70) eqn:E70;
    [|apply Z.ltb_ge in E70; lia].
  destruct (80 <? _calculate_growth_potential p) eqn:E80;
    [apply Z.ltb_lt in E80; lia|].
  split; [by left|].
  destruct (String.eqb user_type "developer"); cbn; intros H;
    repeat destruct H as [H|H]; try discriminate H; contradiction.
Qed.

Lemma high_churn_means_poor_health_witness :
  _calculate_health_score churning_report <= 30
  /\ _calculate_growth_potential churning_report <= 80
  /\ In revenue_recommendation
        (_create_recommendations (_calculate_health_score churning_report)
           (_calculate_growth_potential churning_report) "standard_user")
  /\ ~ In growth_recommendation
          (_create_recommendations (_calculate_health_score churning_report)
             (_calculate_growth_potential churning_report) "standard_user").
Proof.
  apply (high_churn_means_poor_health churning_report "standard_user").
  reflexivity.
Defined.

Lemma growth_above_80 (p : Patterns) :
  80 < _calculate_growth_potential p <->
  py_eq_str (revenue_patterns p !! "trend") "growing" = true
  /\ py_eq_str (development_patterns p !! "activity_level") "very_active" = true.
Proof.
  unfold _calculate_growth_potential, growth_potential_unclamped.
  case_conditions; split; try lia; intros [? ?]; try discriminate; lia.
Qed.

Lemma growth_above_80_health (p : Patterns) :
  80 < _calculate_growth_potential p -> 70 <= _calculate_health_score p.
Proof.
  intros Hg. apply growth_above_80 in Hg as [Hgrow Hvery].
  unfold _calculate_health_score, health_score_unclamped. cbn [existsb].
  rewrite Hgrow, Hvery. case_conditions; cbn [orb]; lia.
Qed.

(** X6: growth potential exceeds 80 exactly when the revenue trend is
    growing and the development activity level is very_active; the website
    trend alone never decides it.  Such a report has a health score of at
    least 70, so the premium offer and the customer success call are never
    recommended together. *)
Theorem growth_above_80_needs_revenue_and_activity (p : Patterns) :
  (80 < _calculate_growth_potential p <->
   py_eq_str (revenue_patterns p !! "trend") "growing" = true
   /\ py_eq_str (development_patterns p !! "activity_level") "very_active" = true)
  /\ (80 < _calculate_growth_potential p -> 70 <= _calculate_health_score p).
Proof.
  split.
  - apply growth_above_80.
  - apply growth_above_80_health.
Qed.

Lemma growth_above_80_needs_revenue_and_activity_witness :
  80 < _calculate_growth_potential expanding_report
  /\ 70 <= _calculate_health_score expanding_report.
Proof.
  destruct (growth_above_80_needs_revenue_and_activity expanding_report)
    as [[_ Hif] Hhealth].
  assert (H : 80 < _calculate_growth_potential expanding_report).
  { apply Hif. split; reflexivity. }
  split; [exact H|]. apply Hhealth. exact H.
Defined.

(** ** Recommendations *)

(** X7: whatever the three inputs, the recommendations are a sublist of the
    three rules in source order (so at most three, each type at most once);
    each rule fires exactly on its condition; and the high-priority ones,
    those that trigger an alert, are the revenue and growth rules alone. *)
Theorem recommendations_follow_rule_order (health growth : Z) (type : string) :
  sublist (_create_recommendations health growth type)
          [revenue_recommendation; development_recommendation; growth_recommendation]
  /\ (In revenue_recommendation (_create_recommendations health growth type)
      <-> health < 70)
  /\ (In development_recommendation (_create_recommendations health growth type)
      <-> type = "developer"%string)
  /\ (In growth_recommendation (_create_recommendations health growth type)
      <-> 80 < growth)
  /\ high_priority_of (_create_recommendations health growth type)
     = (if health <? 70 then [revenue_recommendation] else [])
       ++ (if 80 <? growth then [growth_recommendation] else []).
Proof.
  unfold _create_recommendations, high_priority_of.
  fold revenue_recommendation development_recommendation growth_recommendation.
  destruct (health <? 70) eqn:Eh; destruct (String.eqb type "developer") eqn:Et;
    destruct (80 <? growth) eqn:Eg;
    repeat match goal with
           | H : (_ <? _) = true |- _ => apply Z.ltb_lt in H
           | H : (_ <? _) = false |- _ => apply Z.ltb_ge in H
           | H : String.eqb _ _ = true |- _ => apply String.eqb_eq in H
           | H : String.eqb _ _ = false |- _ => apply String.eqb_neq in H
           end;
    (split; [cbn; repeat constructor|]);
    cbn; repeat split; try reflexivity; try lia; try assumption;
    try (intros; tauto);
    try (intros H; repeat destruct H as [H|H]; try discriminate H; done).
Qed.

Lemma recommendations_follow_rule_order_witness :
  In revenue_recommendation (_create_recommendations 60 90 "developer")
  /\ In development_recommendation (_create_recommendations 60 90 "developer")
  /\ In growth_recommendation (_create_recommendations 60 90 "developer").
Proof.
  destruct (recommendations_follow_rule_order 60 90 "developer")
    as (_ & [_ Hrev] & [_ Hdev] & [_ Hgrowth] & _).
  split; [apply Hrev; lia|]. split; [apply Hdev; reflexivity|].
  apply Hgrowth. lia.
Defined.

(** ** The analysis of one account *)

(** X8: whenever the analysis of a snapshot returns, for any answer of the
    language model, the insights carry that answer unchanged and a user
    type other than developer, and the recommendation list is empty, the
    customer success call alone (exactly when health is below 70) or the
    premium offer alone (exactly when growth is above 80): it has at most
    one entry and all of it is high priority. *)
Theorem analysis_yields_at_most_one_recommendation (ai_insights : string)
    (s : UserData) (p : Patterns) (i : Insights) (recs : list Recommendation) :
  analyze_user_data ai_insights s = Ret (p, i, recs) ->
  _analyze_patterns s = Ret p
  /\ ai_analysis i = ai_insights
  /\ health_score i = _calculate_health_score p
  /\ growth_potential i = _calculate_growth_potential p
  /\ user_type i <> "developer"%string
  /\ (recs = [] \/ recs = [revenue_recommendation] \/ recs = [growth_recommendation])
  /\ (recs = [revenue_recommendation] <-> health_score i < 70)
  /\ (recs = [growth_recommendation] <-> 80 < growth_potential i)
  /\ high_priority_of recs = recs.
Proof.
  destruct (user_type_of_snapshot s) as (p0 & t & Hp & _ & Ht & _ & Hnotdev).
  unfold analyze_user_data, _generate_ai_insights. rewrite Hp. cbn [res_bind].
  rewrite Ht. cbn [res_bind]. intros [= <- <- <-].
  split; [reflexivity|]. split; [reflexivity|].
  split; [reflexivity|]. split; [reflexivity|]. split; [exact Hnotdev|].
  unfold recommendations_for, _create_recommendations.
  cbn [health_score growth_potential user_type].
  fold revenue_recommendation development_recommendation growth_recommendation.
  apply String.eqb_neq in Hnotdev. rewrite Hnotdev.
  pose proof (growth_above_80_health p0) as Hexcl.
  destruct (_calculate_health_score p0 <? 70) eqn:Eh;
    destruct (80 <? _calculate_growth_potential p0) eqn:Eg;
    repeat match goal with
           | H : (_ <? _) = true |- _ => apply Z.ltb_lt in H
           | H : (_ <? _) = false |- _ => apply Z.ltb_ge in H
           end.
  - specialize (Hexcl Eg). lia.
  - cbn. split; [tauto|]. repeat split; try done; try lia.
  - cbn. split; [tauto|]. repeat split; try done; try lia.
  - cbn. split; [tauto|]. repeat split; try done; try lia.
Qed.

(** ** Revenue patterns *)

Lemma fold_left_Qplus_acc (l : list Q) (a : Q) :
  (fold_left Qplus l a == a + fold_left Qplus l 0)%Q.
Proof.
  revert a. induction l as [|x l IH]; intros a; cbn [fold_left].
  - ring.
  - rewrite (IH (a + x)%Q), (IH (0 + x)%Q). ring.
Qed.

Lemma py_sum_cons (x : Q) (l : list Q) : (py_sum (x :: l) == x + py_sum l)%Q.
Proof.
  unfold py_sum. cbn [fold_left]. rewrite fold_left_Qplus_acc. ring.
Qed.

Lemma Qltb_compat (a a' b b' : Q) :
  (a == a')%Q -> (b == b')%Q -> Qltb a b = Qltb a' b'.
Proof.
  intros Ha Hb. destruct (Qltb a' b') eqn:E.
  - apply Qltb_lt. apply Qltb_lt in E. by rewrite Ha, Hb.
  - apply Qltb_nlt. apply Qltb_nlt in E. by rewrite Ha, Hb.
Qed.

Lemma stable_growth_rates_of (revenue_data : list RevenueEntry) :
  forallb (fun g => Qltb (Qabs g) 20) (growth_rates_of revenue_data)
  = forallb (fun g => Qltb (Qabs g) 20) (omap growth_rate revenue_data).
Proof.
  unfold growth_rates_of.
  induction revenue_data as [|r rs IH]; [reflexivity|].
  cbn [omap list_omap].
  destruct (growth_rate r) as [g|]; cbn [truthy_num]; [|exact IH].
  destruct (Qeq_bool g 0) eqn:Ez; cbn [negb forallb]; [|by rewrite IH].
  apply Qeq_bool_iff in Ez. rewrite IH.
  assert (Hsmall : Qltb (Qabs g) 20 = true).
  { rewrite (Qltb_compat (Qabs g) (Qabs 0) 20 20); [reflexivity| |reflexivity].
    by rewrite Ez. }
  by rewrite Hsmall.
Qed.

(** X9: dropping the growth rates equal to 0 does not change the
    stability: for a non-empty series it is stable exactly when every entry
    that has a growth rate has one below 20 in absolute value, and volatile
    otherwise. *)
Theorem stability_over_present_rates (r : RevenueEntry) (rs : list RevenueEntry) :
  (_analyze_revenue_patterns (r :: rs) !! "revenue_stability" = Some (VStr "stable")
   <-> Forall (fun g => (Qabs g < 20)%Q) (omap growth_rate (r :: rs)))
  /\ (_analyze_revenue_patterns (r :: rs) !! "revenue_stability" = Some (VStr "stable")
      \/ _analyze_revenue_patterns (r :: rs) !! "revenue_stability"
         = Some (VStr "volatile")).
Proof.
  cbn [_analyze_revenue_patterns].
  rewrite !lookup_insert_ne by done. rewrite lookup_insert_eq.
  rewrite stable_growth_rates_of.
  destruct (forallb (fun g => Qltb (Qabs g) 20) (omap growth_rate (r :: rs))) eqn:E.
  - split; [|by left]. split; [intros _|reflexivity].
    apply List.Forall_forall. intros g Hin.
    apply Qltb_lt. exact (proj1 (forallb_forall _ _) E g Hin).
  - split; [|by right]. split; [discriminate|].
    intros Hall. exfalso.
    assert (Et : forallb (fun g => Qltb (Qabs g) 20) (omap growth_rate (r :: rs)) = true).
    { apply forallb_forall. intros g Hin. apply Qltb_lt.
      exact (proj1 (List.Forall_forall _ _) Hall g Hin). }
    congruence.
Qed.

Lemma stability_over_present_rates_witness :
  _analyze_revenue_patterns flat_then_up !! "revenue_stability" = Some (VStr "stable").
Proof.
  apply (stability_over_present_rates
           {| month := "2024-01"; revenue := 100%Q; growth_rate := Some 0%Q |}
           [ {| month := "2024-02"; revenue := 110%Q; growth_rate := Some 10%Q |} ]).
  repeat constructor.
Defined.

Lemma growth_rates_of_unusable (revenue_data : list RevenueEntry) :
  (forall r, r ∈ revenue_data -> truthy_num (growth_rate r) = false) ->
  growth_rates_of revenue_data = [].
Proof.
  unfold growth_rates_of.
  induction revenue_data as [|r rs IH]; intros Hnone; [reflexivity|].
  cbn [omap list_omap]. rewrite (Hnone r) by (by left).
  apply IH. intros r' Hin. apply Hnone. by right.
Qed.

(** X10: a non-empty revenue series in which no entry has a usable growth
    rate (each is missing or 0), such as an account in its first month, is
    classified declining, stable, with average growth 0; its health score
    is therefore at most 60 and the customer success call is recommended. *)
Theorem series_without_growth_rates_is_declining (s : UserData) (type : string) :
  ud_revenue s <> [] ->
  (forall r, r ∈ ud_revenue s -> truthy_num (growth_rate r) = false) ->
  _analyze_revenue_patterns (ud_revenue s) !! "trend" = Some (VStr "declining")
  /\ _analyze_revenue_patterns (ud_revenue s) !! "revenue_stability"
     = Some (VStr "stable")
  /\ _analyze_revenue_patterns (ud_revenue s) !! "avg_growth_rate" = Some (VNum 0)
  /\ exists p, _analyze_patterns s = Ret p
       /\ _calculate_health_score p <= 60
       /\ In revenue_recommendation
             (_create_recommendations (_calculate_health_score p)
                                      (_calculate_growth_potential p) type).
Proof.
  intros Hne Hnone.
  pose proof (growth_rates_of_unusable _ Hnone) as Hrates.
  destruct (ud_revenue s) as [|r rs] eqn:Erev; [done|].
  assert (Htrend : _analyze_revenue_patterns (r :: rs) !! "trend"
                   = Some (VStr "declining")).
  { cbn [_analyze_revenue_patterns]. rewrite lookup_insert_eq, Hrates. reflexivity. }
  split; [exact Htrend|].
  split.
  { cbn [_analyze_revenue_patterns]. rewrite !lookup_insert_ne by done.
    rewrite lookup_insert_eq, Hrates. reflexivity. }
  split.
  { cbn [_analyze_revenue_patterns]. rewrite !lookup_insert_ne by done.
    rewrite lookup_insert_eq, Hrates. reflexivity. }
  destruct (patterns_of_snapshot s) as (p & Hp & Hrev & _).
  exists p. split; [exact Hp|].
  assert (Hh : _calculate_health_score p <= 60).
  { unfold _calculate_health_score, health_score_unclamped. cbn [existsb].
    rewrite Hrev, Erev, Htrend. cbn [py_eq_str String.eqb Ascii.eqb Bool.eqb].
    case_conditions; cbn [orb]; lia. }
  split; [exact Hh|].
  unfold _create_recommendations.
  destruct (_calculate_health_score p <? 70) eqn:E70;
    [by left|apply Z.ltb_ge in E70; lia].
Qed.

Lemma series_without_growth_rates_is_declining_witness :
  _analyze_revenue_patterns first_month !! "trend" = Some (VStr "declining")
  /\ _analyze_revenue_patterns first_month !! "revenue_stability" = Some (VStr "stable")
  /\ _analyze_revenue_patterns first_month !! "avg_growth_rate" = Some (VNum 0)
  /\ exists p,
       _analyze_patterns {| ud_customer := None; ud_developer := None;
                            ud_revenue := first_month; ud_website := [] |} = Ret p
       /\ _calculate_health_score p <= 60
       /\ In revenue_recommendation
             (_create_recommendations (_calculate_health_score p)
                                      (_calculate_growth_potential p) "standard_user").
Proof.
  apply (series_without_growth_rates_is_declining
           {| ud_customer := None; ud_developer := None;
              ud_revenue := first_month; ud_website := [] |} "standard_user").
  - discriminate.
  - intros r Hin. apply list_elem_of_In in Hin. cbn in Hin.
    destruct Hin as [<-|[]]. reflexivity.
Defined.

(** ** Key metrics *)

(** X11: the monthly revenue of the key metrics is the current MRR of the
    revenue pattern (0 for an empty series).  The average of daily users
    is the sum over the last seven website entries divided by 7 whatever
    their number: the mean of the last seven when there are at least seven,
    but only a seventh of the total when there are fewer. *)
Theorem key_metrics_of_snapshot (s : UserData) (total_repos : option Q) :
  _extract_key_metrics s total_repos !! "monthly_revenue"
  = Some (get_default (_analyze_revenue_patterns (ud_revenue s)) "current_mrr" (VNum 0))
  /\ exists avg,
       _extract_key_metrics s total_repos !! "avg_daily_users" = Some (VNum avg)
       /\ ((length (ud_website s) <= 7)%nat ->
           (avg * 7 == py_sum (map daily_users (ud_website s)))%Q)
       /\ ((7 <= length (ud_website s))%nat ->
           (avg == mean (map daily_users
                           (drop (length (ud_website s) - 7) (ud_website s))))%Q).
Proof.
  unfold _extract_key_metrics. split.
  - rewrite !lookup_insert_ne by done. rewrite lookup_insert_eq.
    unfold get_default. destruct (ud_revenue s) as [|r rs].
    + cbn [_analyze_revenue_patterns].
      by rewrite (no_data_has_no_other_key "current_mrr").
    + cbn [_analyze_revenue_patterns].
      rewrite !lookup_insert_ne by done. by rewrite lookup_insert_eq.
  - eexists. split.
    { rewrite !lookup_insert_ne by done. by rewrite lookup_insert_eq. }
    destruct (ud_website s) as [|w ws] eqn:Ews.
    + split; [intros _; reflexivity|]. cbn [length]. lia.
    + rewrite <- Ews. split.
      * intros Hle. replace (length (ud_website s) - 7)%nat with 0%nat by lia.
        rewrite drop_0. field.
      * intros Hge. unfold mean, py_len.
        rewrite length_map, length_drop.
        replace (length (ud_website s) - (length (ud_website s) - 7))%nat
          with 7%nat by lia.
        reflexivity.
Qed.

Lemma key_metrics_of_snapshot_witness :
  exists avg,
    _extract_key_metrics one_day_site None !! "avg_daily_users" = Some (VNum avg)
    /\ (avg * 7 == 100)%Q.
Proof.
  destruct (key_metrics_of_snapshot one_day_site None)
    as (_ & avg & Hlookup & Hfew & _).
  exists avg. split; [exact Hlookup|].
  rewrite Hfew by (cbn; lia). reflexivity.
Defined.

(** ** Threshold classifiers *)

Ltac contradict_thresholds x y Hle :=
  match goal with
  | H1 : Qltb ?t x = true, H2 : Qltb ?t y = false |- _ =>
    apply Qltb_lt in H1; apply Qltb_nlt in H2; exfalso; apply H2;
    exact (Qlt_le_trans _ _ _ H1 Hle)
  end.

(** X12: the activity level and the customer value tier never go down
    when the productivity score or the lifetime value goes up. *)
Theorem threshold_classifiers_are_monotone (x y : Q) :
  (x <= y)%Q ->
  (activity_rank (_categorize_activity x) <= activity_rank (_categorize_activity y))%nat
  /\ (ltv_rank (_categorize_ltv x) <= ltv_rank (_categorize_ltv y))%nat.
Proof.
  intros Hle. split.
  - unfold _categorize_activity.
    destruct (Qltb 100 x) eqn:X1; destruct (Qltb 50 x) eqn:X2;
      destruct (Qltb 20 x) eqn:X3; destruct (Qltb 100 y) eqn:Y1;
      destruct (Qltb 50 y) eqn:Y2; destruct (Qltb 20 y) eqn:Y3;
      cbn; try lia; contradict_thresholds x y Hle.
  - unfold _categorize_ltv.
    destruct (Qltb 10000 x) eqn:X1; destruct (Qltb 1000 x) eqn:X2;
      destruct (Qltb 100 x) eqn:X3; destruct (Qltb 10000 y) eqn:Y1;
      destruct (Qltb 1000 y) eqn:Y2; destruct (Qltb 100 y) eqn:Y3;
      cbn; try lia; contradict_thresholds x y Hle.
Qed.

Lemma threshold_classifiers_are_monotone_witness :
  (activity_rank (_categorize_activity 30) <= activity_rank (_categorize_activity 120))%nat
  /\ (ltv_rank (_categorize_ltv 30) <= ltv_rank (_categorize_ltv 120))%nat.
Proof.
  apply (threshold_classifiers_are_monotone 30 120). vm_compute. discriminate.
Defined.

(** ** Website patterns *)

Lemma py_sum_zero (l : list Q) :
  Forall (fun x => x == 0)%Q l -> (py_sum l == 0)%Q.
Proof.
  induction 1 as [|x l Hx _ IH]; [reflexivity|].
  rewrite py_sum_cons, Hx, IH. reflexivity.
Qed.

(** X13: a non-empty website series in which no entry has a positive user
    count never divides by zero: every ratio counts as 0 and the growth
    phase is mature_stage. *)
Theorem site_without_users_is_mature (website_data : list WebsiteEntry) :
  website_data <> [] ->
  (forall d, In d website_data -> ~ (0 < users d)%Q) ->
  _categorize_growth website_data = "mature_stage"%string
  /\ _analyze_website_patterns website_data !! "growth_phase"
     = Some (VStr "mature_stage").
Proof.
  intros Hne Hnone.
  destruct website_data as [|w ws]; [done|].
  assert (Hcat : _categorize_growth (w :: ws) = "mature_stage"%string).
  { unfold _categorize_growth.
    set (ratios := map _ (w :: ws)).
    assert (Hzero : (py_sum ratios / py_len (w :: ws) == 0)%Q).
    { rewrite (py_sum_zero ratios).
      - unfold Qdiv. ring.
      - subst ratios. apply List.Forall_forall. intros x Hin.
        apply in_map_iff in Hin as (d & <- & Hd).
        destruct (Qltb 0 (users d)) eqn:Eu; [|reflexivity].
        apply Qltb_lt in Eu. exfalso. exact (Hnone d Hd Eu). }
    rewrite (Qltb_compat (7 # 10) (7 # 10) _ 0 (Qeq_refl _) Hzero).
    rewrite (Qltb_compat (3 # 10) (3 # 10) _ 0 (Qeq_refl _) Hzero).
    reflexivity. }
  split; [exact Hcat|].
  cbn [_analyze_website_patterns].
  rewrite !lookup_insert_ne by done. rewrite lookup_insert_eq. by rewrite Hcat.
Qed.

Lemma site_without_users_is_mature_witness :
  _categorize_growth empty_site = "mature_stage"%string
  /\ _analyze_website_patterns empty_site !! "growth_phase"
     = Some (VStr "mature_stage").
Proof.
  apply (site_without_users_is_mature empty_site).
  - discriminate.
  - intros d Hin. cbn in Hin. destruct Hin as [<-|[<-|[]]]; cbn; discriminate.
Defined.

Lemma py_sum_replicate (k : nat) (v : Q) :
  (py_sum (replicate k v) == inject_Z (Z.of_nat k) * v)%Q.
Proof.
  induction k as [|k IH]; [cbn; ring|].
  cbn [replicate]. rewrite py_sum_cons, IH, Nat2Z.inj_succ.
  unfold Z.succ. rewrite inject_Z_plus. ring.
Qed.

Lemma mean_replicate (k : nat) (v : Q) :
  (0 < k)%nat -> (mean (replicate k v) == v)%Q.
Proof.
  intros Hk. unfold mean, py_len.
  rewrite py_sum_replicate, length_replicate.
  field. intros H. unfold Qeq in H. cbn in H. lia.
Qed.

(** X14: flat traffic is stable: a series of at least two entries that all
    have the same non-negative number of daily users has the traffic trend
    stable. *)
Theorem flat_traffic_is_stable (n : nat) (v : Q) :
  (2 <= n)%nat -> (0 <= v)%Q ->
  _detect_trend (replicate n v) = "stable"%string.
Proof.
  intros Hn Hv.
  rewrite _detect_trend_is_split_half by (rewrite length_replicate; lia).
  rewrite length_replicate, take_replicate, drop_replicate.
  assert (Hhalf : (0 < n / 2 /\ n / 2 <= n)%nat).
  { split; [|apply half_le].
    apply Nat.div_str_pos. lia. }
  assert (H1 : (mean (replicate ((n / 2) `min` n) v) == v)%Q)
    by (apply mean_replicate; lia).
  assert (H2 : (mean (replicate (n - n / 2) v) == v)%Q).
  { apply mean_replicate.
    assert (n / 2 < n)%nat by (apply Nat.div_lt; lia). lia. }
  assert (E1 : Qltb (mean (replicate ((n / 2) `min` n) v) * (11 # 10))
                    (mean (replicate (n - n / 2) v)) = false).
  { apply Qltb_nlt. rewrite H1, H2. lra. }
  assert (E2 : Qltb (mean (replicate (n - n / 2) v))
                    (mean (replicate ((n / 2) `min` n) v) * (9 # 10)) = false).
  { apply Qltb_nlt. rewrite H1, H2. lra. }
  by rewrite E1, E2.
Qed.

Lemma flat_traffic_is_stable_witness :
  _detect_trend (replicate 5 (120 # 1)) = "stable"%string.
Proof.
  apply (flat_traffic_is_stable 5 (120 # 1)); [lia|]. vm_compute. discriminate.
Defined.

(** ** Invariants of the batch trace *)

Section BatchInvariants.
Context {World : Type}.
Variable analyze_user_workflow :
  string -> World -> World * (raised + list Recommendation).
Variable send_alert :
  string -> list Recommendation -> World -> World * (raised + unit).

Lemma high_priority_filter (recs : list Recommendation) :
  Forall (fun r => priority r = "high"%string)
         (List.filter (fun r => String.eqb (priority r) "high") recs).
Proof.
  apply List.Forall_forall. intros r Hin.
  apply List.filter_In in Hin as [_ Hhigh]. by apply String.eqb_eq.
Qed.

Lemma try_body_well_formed (user_id : string) (w : World) :
  Forall well_formed_event
         (try_body analyze_user_workflow send_alert user_id w).1.2.
Proof.
  unfold try_body.
  destruct (analyze_user_workflow user_id w) as [w1 [e|recs]];
    [repeat constructor|].
  pose proof (high_priority_filter recs) as Hhigh.
  destruct (List.filter _ recs) as [|r hp]; [repeat constructor|].
  assert (Halert : well_formed_event (Alert user_id (r :: hp)))
    by (split; [discriminate|exact Hhigh]).
  destruct (send_alert user_id (r :: hp) w1) as [w2 [e|[]]];
    cbn [fst snd app]; repeat (apply List.Forall_cons; [first [exact Halert|exact I]|]);
    apply List.Forall_nil.
Qed.

Lemma for_each_user_well_formed (active_users : list string) (w : World) :
  Forall well_formed_event
         (for_each_user analyze_user_workflow send_alert active_users w).1.2.
Proof.
  revert w. induction active_users as [|user_id rest IH]; intros w;
    [constructor|].
  cbn [for_each_user].
  pose proof (try_body_well_formed user_id w) as Hbody.
  destruct (try_body analyze_user_workflow send_alert user_id w)
    as [[w1 ev] [[msg|msg]|u]]; cbn [fst snd] in Hbody.
  - specialize (IH w1).
    destruct (for_each_user analyze_user_workflow send_alert rest w1)
      as [[w2 ev2] out]. cbn [fst snd] in *.
    apply Forall_app. split; [exact Hbody|]. constructor; [exact I|exact IH].
  - exact Hbody.
  - specialize (IH w1).
    destruct (for_each_user analyze_user_workflow send_alert rest w1)
      as [[w2 ev2] out]. cbn [fst snd] in *.
    apply Forall_app. by split.
Qed.

(** X15: in every run of the batch, whatever the collaborators do, each
    alert that is sent carries a non-empty list made of high-priority
    recommendations only. *)
Theorem alerts_carry_high_priority_only (active_users : list string) (w : World) :
  Forall well_formed_event
         (run_daily_analysis analyze_user_workflow send_alert active_users w).1.2.
Proof.
  unfold run_daily_analysis.
  pose proof (for_each_user_well_formed active_users w) as Hloop.
  destruct (for_each_user analyze_user_workflow send_alert active_users w)
    as [[w1 ev] [e|]]; cbn [fst snd] in *; [exact Hloop|].
  apply Forall_app. split; [exact Hloop|]. by repeat constructor.
Qed.

Lemma try_body_never_closes (user_id : string) (w : World) :
  ~ In (Print "Daily analysis complete")
       (try_body analyze_user_workflow send_alert user_id w).1.2.
Proof.
  unfold try_body.
  destruct (analyze_user_workflow user_id w) as [w1 [e|recs]].
  - cbn. intros [H|[H|[]]]; discriminate H.
  - destruct (List.filter _ recs) as [|r hp].
    + cbn. intros [H|[H|[H|[]]]]; discriminate H.
    + destruct (send_alert user_id (r :: hp) w1) as [w2 [e|[]]]; cbn.
      * intros [H|[H|[H|[]]]]; discriminate H.
      * intros [H|[H|[H|[H|[]]]]]; discriminate H.
Qed.

(** X16: the loop over the accounts (lines 400-414) either runs to the end
    of the list, and then every account was analysed, in order; or it is
    left by an exception, and then the exception is outside [Exception],
    the accounts up to the one that raised it were analysed and those after
    it were not.  No iteration prints the closing line of the batch. *)
Theorem account_loop_stops_only_when_interrupted (active_users : list string) :
  forall w w' tr out,
    for_each_user analyze_user_workflow send_alert active_users w = (w', tr, out) ->
    ~ In (Print "Daily analysis complete") tr
    /\ (out = None -> analyzed tr = active_users)
    /\ (forall e, out = Some e ->
        exists msg pre user_id post,
          e = BaseException msg
          /\ active_users = pre ++ user_id :: post
          /\ analyzed tr = pre ++ [user_id]).
Proof.
  induction active_users as [|user_id rest IH]; intros w w' tr out.
  - cbn [for_each_user]. intros [= <- <- <-].
    split; [intros []|]. split; [reflexivity|]. intros e He. discriminate He.
  - cbn [for_each_user].
    pose proof (try_body_analyzed analyze_user_workflow send_alert user_id w) as Hev.
    pose proof (try_body_never_closes user_id w) as Hnc.
    destruct (try_body analyze_user_workflow send_alert user_id w)
      as [[w1 ev] [[msg|msg]|u]]; cbn [fst snd] in Hev, Hnc.
    + destruct (for_each_user analyze_user_workflow send_alert rest w1)
        as [[w2 ev2] out2] eqn:Erest.
      intros [= <- <- <-].
      destruct (IH _ _ _ _ Erest) as (Hnc2 & Hnone & Hsome).
      assert (Han : analyzed
                      (ev ++ Print ("Error analyzing user " ++ user_id ++ ": " ++ msg)
                          :: ev2)
                    = user_id :: analyzed ev2).
      { unfold analyzed in *. rewrite omap_app. cbn [omap list_omap].
        by rewrite Hev. }
      split; [|split].
      * rewrite in_app_iff. intros [H|[H|H]]; [by apply Hnc| |by apply Hnc2].
        discriminate H.
      * intros Hout. rewrite Han, (Hnone Hout). reflexivity.
      * intros e He. destruct (Hsome e He) as (m & pre & u' & post & -> & -> & Hpre).
        exists m, (user_id :: pre), u', post.
        split; [reflexivity|]. split; [reflexivity|]. by rewrite Han, Hpre.
    + intros [= <- <- <-]. split; [exact Hnc|]. split; [discriminate|].
      intros e [= <-]. exists msg, [], user_id, rest.
      split; [reflexivity|]. split; [reflexivity|]. exact Hev.
    + destruct (for_each_user analyze_user_workflow send_alert rest w1)
        as [[w2 ev2] out2] eqn:Erest.
      intros [= <- <- <-].
      destruct (IH _ _ _ _ Erest) as (Hnc2 & Hnone & Hsome).
      assert (Han : analyzed (ev ++ ev2) = user_id :: analyzed ev2).
      { unfold analyzed in *. rewrite omap_app. by rewrite Hev. }
      split; [|split].
      * rewrite in_app_iff. intros [H|H]; [by apply Hnc|by apply Hnc2].
      * intros Hout. rewrite Han, (Hnone Hout). reflexivity.
      * intros e He. destruct (Hsome e He) as (m & pre & u' & post & -> & -> & Hpre).
        exists m, (user_id :: pre), u', post.
        split; [reflexivity|]. split; [reflexivity|]. by rewrite Han, Hpre.
Qed.

Lemma prefix_append (s t : string) : String.prefix s (s ++ t) = true.
Proof.
  induction s as [|a s IH]; [by destruct t|].
  change (match Ascii.ascii_dec a a with
          | left _ => String.prefix s (s ++ t)
          | right _ => false
          end = true).
  destruct (Ascii.ascii_dec a a); [exact IH|done].
Qed.

Lemma started_is_no_outcome (user_id : string) :
  is_outcome_line (Print ("Analyzing user " ++ user_id ++ "...")) = false.
Proof. reflexivity. Qed.

Lemma finished_is_outcome (user_id : string) :
  is_outcome_line (Print ("Analysis complete for user " ++ user_id)) = true.
Proof. unfold is_outcome_line. by rewrite prefix_append. Qed.

Lemma caught_is_outcome (user_id msg : string) :
  is_outcome_line (Print ("Error analyzing user " ++ user_id ++ ": " ++ msg)) = true.
Proof. unfold is_outcome_line. rewrite (prefix_append "Error analyzing user "). apply orb_true_r. Qed.

Lemma try_body_outcome_lines (user_id : string) (w : World) :
  outcome_lines (try_body analyze_user_workflow send_alert user_id w).1.2
  = match (try_body analyze_user_workflow send_alert user_id w).2 with
    | inr _ => 1%nat
    | inl _ => 0%nat
    end.
Proof.
  unfold try_body.
  destruct (analyze_user_workflow user_id w) as [w1 [e|recs]].
  { cbn [fst snd]. unfold outcome_lines. cbn [List.filter].
    by rewrite started_is_no_outcome. }
  destruct (List.filter _ recs) as [|r hp].
  { cbn [fst snd app]. unfold outcome_lines. cbn [List.filter].
    by rewrite started_is_no_outcome, finished_is_outcome. }
  destruct (send_alert user_id (r :: hp) w1) as [w2 [e|[]]];
    cbn [fst snd app]; unfold outcome_lines; cbn [List.filter];
    rewrite started_is_no_outcome, ?finished_is_outcome; reflexivity.
Qed.

Lemma outcome_lines_app (tr1 tr2 : list event) :
  outcome_lines (tr1 ++ tr2) = (outcome_lines tr1 + outcome_lines tr2)%nat.
Proof. unfold outcome_lines. by rewrite List.filter_app, length_app. Qed.

Lemma for_each_user_outcome_lines (active_users : list string) :
  forall w w' tr,
    for_each_user analyze_user_workflow send_alert active_users w = (w', tr, None) ->
    outcome_lines tr = length active_users.
Proof.
  induction active_users as [|user_id rest IH]; intros w w' tr.
  - cbn [for_each_user]. by intros [= <- <-].
  - cbn [for_each_user].
    pose proof (try_body_outcome_lines user_id w) as Hlines.
    destruct (try_body analyze_user_workflow send_alert user_id w)
      as [[w1 ev] [[msg|msg]|u]]; cbn [fst snd] in Hlines.
    + destruct (for_each_user analyze_user_workflow send_alert rest w1)
        as [[w2 ev2] out2] eqn:Erest.
      intros [= <- <- ->].
      rewrite outcome_lines_app, Hlines.
      change (Print ("Error analyzing user " ++ user_id ++ ": " ++ msg) :: ev2)
        with ([Print ("Error analyzing user " ++ user_id ++ ": " ++ msg)] ++ ev2).
      rewrite outcome_lines_app, (IH _ _ _ Erest).
      unfold outcome_lines at 1. cbn [List.filter].
      by rewrite caught_is_outcome.
    + discriminate.
    + destruct (for_each_user analyze_user_workflow send_alert rest w1)
        as [[w2 ev2] out2] eqn:Erest.
      intros [= <- <- ->].
      rewrite outcome_lines_app, Hlines, (IH _ _ _ Erest). reflexivity.
Qed.

(** X17: in a run that ends normally every account gets exactly one
    outcome line, either "Analysis complete" or "Error analyzing": no
    failure is silent and no account is reported twice. *)
Theorem one_outcome_line_per_account (active_users : list string)
    (w w' : World) (tr : list event) :
  run_daily_analysis analyze_user_workflow send_alert active_users w = (w', tr, None) ->
  outcome_lines tr = length active_users.
Proof.
  unfold run_daily_analysis.
  destruct (for_each_user analyze_user_workflow send_alert active_users w)
    as [[w1 ev] [e|]] eqn:Eloop; [discriminate|].
  intros [= <- <-].
  rewrite outcome_lines_app, (for_each_user_outcome_lines _ _ _ _ Eloop).
  cbn. lia.
Qed.
End BatchInvariants.

Lemma account_loop_stops_only_when_interrupted_witness :
  exists msg pre user_id post,
    BaseException "KeyboardInterrupt" = BaseException msg
    /\ three_users = pre ++ user_id :: post
    /\ analyzed (for_each_user interrupted_analysis silent_alert
                               three_users 0%nat).1.2
       = pre ++ [user_id].
Proof.
  destruct (account_loop_stops_only_when_interrupted
              interrupted_analysis silent_alert three_users 0%nat
              (for_each_user interrupted_analysis silent_alert three_users 0%nat).1.1
              (for_each_user interrupted_analysis silent_alert three_users 0%nat).1.2
              (Some (BaseException "KeyboardInterrupt")) eq_refl) as (_ & _ & Hsome).
  exact (Hsome _ eq_refl).
Defined.

Lemma one_outcome_line_per_account_witness :
  outcome_lines (run_daily_analysis flaky_analysis silent_alert three_users 0%nat).1.2
  = length three_users.
Proof.
  apply (one_outcome_line_per_account flaky_analysis silent_alert three_users 0%nat
           (run_daily_analysis flaky_analysis silent_alert three_users 0%nat).1.1).
  reflexivity.
Defined.

(** ** Missing data and user type *)

Lemma keys_of_revenue (r : RevenueEntry) (rs : list RevenueEntry) :
  dom (_analyze_revenue_patterns (r :: rs))
  = ({[ "trend"; "avg_growth_rate"; "seasonality"; "revenue_stability";
        "current_mrr" ]} : gset string).
Proof.
  cbn [_analyze_revenue_patterns]. rewrite !dom_insert_L, dom_empty_L. set_solver.
Qed.

Lemma keys_of_customer (c : CustomerRecord) :
  dom (_analyze_customer_patterns (Some c))
  = ({[ "customer_value"; "engagement"; "purchase_frequency"; "cross_platform" ]}
     : gset string).
Proof.
  cbn [_analyze_customer_patterns]. rewrite !dom_insert_L, dom_empty_L. set_solver.
Qed.

Lemma keys_of_website (w : WebsiteEntry) (ws : list WebsiteEntry) :
  dom (_analyze_website_patterns (w :: ws))
  = ({[ "traffic_trend"; "engagement_quality"; "user_retention"; "growth_phase" ]}
     : gset string).
Proof.
  cbn [_analyze_website_patterns]. rewrite !dom_insert_L, dom_empty_L. set_solver.
Qed.

Lemma keys_of_developer (d : DeveloperRecord) :
  exists m, _analyze_dev_patterns (Some d) = Ret m
    /\ dom m = ({[ "activity_level"; "pr_efficiency"; "most_active_day";
                   "most_active_hour"; "collaboration_style" ]} : gset string).
Proof.
  cbn [_analyze_dev_patterns].
  destruct (_day_name_total (match most_active_day d with Some n => n | None => 0 end))
    as [name ->].
  cbn [res_bind]. eexists. split; [reflexivity|].
  rewrite !dom_insert_L, dom_empty_L. set_solver.
Qed.

(** X18: in the pattern report of a snapshot a category whose input is
    missing (an empty revenue or website series, an absent customer or
    developer row) is exactly the dictionary with the single entry
    status = no_data; a category with input has exactly the keys of its
    classifier and no status entry, whatever its fields. *)
Theorem status_marks_missing_input (s : UserData) :
  exists p, _analyze_patterns s = Ret p
    /\ (ud_revenue s = [] -> revenue_patterns p = {[ "status" := VStr "no_data" ]})
    /\ (ud_revenue s <> [] ->
        revenue_patterns p !! "status" = None
        /\ dom (revenue_patterns p)
           = ({[ "trend"; "avg_growth_rate"; "seasonality"; "revenue_stability";
                 "current_mrr" ]} : gset string))
    /\ (ud_developer s = None ->
        development_patterns p = {[ "status" := VStr "no_data" ]})
    /\ (ud_developer s <> None ->
        development_patterns p !! "status" = None
        /\ dom (development_patterns p)
           = ({[ "activity_level"; "pr_efficiency"; "most_active_day";
                 "most_active_hour"; "collaboration_style" ]} : gset string))
    /\ (ud_customer s = None ->
        customer_patterns p = {[ "status" := VStr "no_data" ]})
    /\ (ud_customer s <> None ->
        customer_patterns p !! "status" = None
        /\ dom (customer_patterns p)
           = ({[ "customer_value"; "engagement"; "purchase_frequency";
                 "cross_platform" ]} : gset string))
    /\ (ud_website s = [] -> website_patterns p = {[ "status" := VStr "no_data" ]})
    /\ (ud_website s <> [] ->
        website_patterns p !! "status" = None
        /\ dom (website_patterns p)
           = ({[ "traffic_trend"; "engagement_quality"; "user_retention";
                 "growth_phase" ]} : gset string)).
Proof.
  destruct (_analyze_patterns_total s) as (dev & Hdev & _ & Hp).
  eexists. split; [exact Hp|].
  cbn [revenue_patterns development_patterns customer_patterns website_patterns].
  assert (Hstatus : forall (m : gmap string value) (keys : gset string),
             dom m = keys -> "status"%string ∉ keys -> m !! "status" = None).
  { intros m keys <- Hnot. by apply not_elem_of_dom. }
  repeat split.
  - intros ->. reflexivity.
  - destruct (ud_revenue s) as [|r rs]; [done|].
    apply (Hstatus _ _ (keys_of_revenue r rs)). set_unfold. intuition discriminate.
  - destruct (ud_revenue s) as [|r rs]; [done|]. apply keys_of_revenue.
  - intros Hnone. rewrite Hnone in Hdev. cbn in Hdev. by injection Hdev as <-.
  - destruct (ud_developer s) as [d|]; [|done].
    destruct (keys_of_developer d) as (m & Hm & Hkeys).
    rewrite Hm in Hdev. injection Hdev as <-.
    apply (Hstatus _ _ Hkeys). set_unfold. intuition discriminate.
  - destruct (ud_developer s) as [d|]; [|done].
    destruct (keys_of_developer d) as (m & Hm & Hkeys).
    rewrite Hm in Hdev. by injection Hdev as <-.
  - intros ->. reflexivity.
  - destruct (ud_customer s) as [c|]; [|done].
    apply (Hstatus _ _ (keys_of_customer c)). set_unfold. intuition discriminate.
  - destruct (ud_customer s) as [c|]; [|done]. apply keys_of_customer.
  - intros ->. reflexivity.
  - destruct (ud_website s) as [|w ws]; [done|].
    apply (Hstatus _ _ (keys_of_website w ws)). set_unfold. intuition discriminate.
  - destruct (ud_website s) as [|w ws]; [done|]. apply keys_of_website.
Qed.

Lemma status_marks_missing_input_witness :
  exists p, _analyze_patterns founder_snapshot = Ret p
    /\ revenue_patterns p !! "status" = None
    /\ development_patterns p !! "status" = None
    /\ customer_patterns p = {[ "status" := VStr "no_data" ]}
    /\ website_patterns p = {[ "status" := VStr "no_data" ]}.
Proof.
  destruct (status_marks_missing_input founder_snapshot)
    as (p & Hp & _ & Hrev & _ & Hdev & Hcust & _ & Hweb & _).
  exists p. split; [exact Hp|].
  split; [apply Hrev; discriminate|]. split; [apply Hdev; discriminate|].
  split; [apply Hcust; reflexivity|apply Hweb; reflexivity].
Defined.

(** X19: the user type of a snapshot depends on the revenue of the last
    entry of the revenue series alone: enterprise_customer above 5000,
    business_customer above 500, standard_user otherwise, and standard_user
    for an empty series; no developer or customer field changes it. *)
Theorem user_type_of_latest_revenue (s : UserData) :
  exists p, _analyze_patterns s = Ret p
    /\ _determine_user_type p =
       Ret (if Qltb 5000 (latest_revenue (ud_revenue s)) then "enterprise_customer"
            else if Qltb 500 (latest_revenue (ud_revenue s)) then "business_customer"
            else "standard_user")%string.
Proof.
  destruct (_analyze_patterns_total s) as (dev & _ & Hnone & Hp).
  eexists. split; [exact Hp|].
  unfold _determine_user_type.
  cbn [revenue_patterns development_patterns].
  assert (Hscore : get_default dev "productivity_score" (VNum 0) = VNum 0)
    by (unfold get_default; by rewrite Hnone).
  assert (Hmrr : get_default (_analyze_revenue_patterns (ud_revenue s))
                             "current_mrr" (VNum 0)
                 = VNum (latest_revenue (ud_revenue s))).
  { unfold get_default, latest_revenue. destruct (ud_revenue s) as [|r rs].
    - cbn [_analyze_revenue_patterns].
      by rewrite (no_data_has_no_other_key "current_mrr").
    - cbn [_analyze_revenue_patterns].
      rewrite !lookup_insert_ne by done. by rewrite lookup_insert_eq. }
  rewrite Hscore, Hmrr. cbn [py_gt res_bind].
  change (Qltb 50 0) with false. cbn iota. cbn [res_bind].
  destruct (Qltb 5000 (latest_revenue (ud_revenue s))); [reflexivity|].
  cbn [res_bind].
  destruct (Qltb 500 (latest_revenue (ud_revenue s))); reflexivity.
Qed.

Lemma analysis_yields_at_most_one_recommendation_witness :
  exists p i recs,
    analyze_user_data "steady account" quiet_snapshot = Ret (p, i, recs)
    /\ user_type i <> "developer"%string
    /\ recs = [revenue_recommendation]
    /\ high_priority_of recs = recs.
Proof.
  assert (Hrun : exists p i recs,
             analyze_user_data "steady account" quiet_snapshot = Ret (p, i, recs)
             /\ health_score i < 70).
  { eexists. eexists. eexists. split; [vm_compute; reflexivity|]. reflexivity. }
  destruct Hrun as (p & i & recs & Hrun & Hlow).
  destruct (analysis_yields_at_most_one_recommendation _ _ _ _ _ Hrun)
    as (_ & _ & _ & _ & Htype & _ & [_ Hcall] & _ & Hhigh).
  exists p, i, recs. split; [exact Hrun|]. split; [exact Htype|].
  split; [exact (Hcall Hlow)|exact Hhigh].
Defined.
